(** * privacyidea.lib.eventhandler.tokenhandler

    A shallow embedding of the token event handler
    ([TokenEventHandler.actions] and [TokenEventHandler.do]) and the
    properties of its dispatch, target resolution and option handling.

    Python values are embedded as the inductive [pyval]; the handler's
    effects (log records, calls into [privacyidea.lib.token],
    [privacyidea.lib.realm] and the base handler) are recorded as a list
    of events; exceptions are explicit outcomes. *)

From Stdlib Require Import String Ascii List ZArith Bool Lia.
Import ListNotations.
Open Scope string_scope.
Open Scope Z_scope.
Open Scope list_scope.

(** ** Python values *)

(** The value universe of request data, decoded JSON bodies and handler
    options: [None], booleans, integers, strings, lists and dicts with
    string keys.  A dict keeps its items in order ([keys()] is a list);
    lookup takes the first binding of a key.  Floating point numbers are
    not part of the embedding. *)
#[local] Set Warnings "-register-all".
Inductive pyval : Type :=
| PNone
| PBool (b : bool)
| PInt (z : Z)
| PStr (s : string)
| PList (l : list pyval)
| PDict (d : list (string * pyval)).

#[local] Set Warnings "register-all".

Definition dict : Type := list (string * pyval).

Inductive pyexc : Type :=
| ValueError
| TypeError
| AttributeError
| CollaboratorError (msg : string).

(** The outcome of evaluating a Python expression. *)
Inductive outcome (A : Type) : Type :=
| Ret (a : A)
| Raise (e : pyexc).
Arguments Ret {A} a.
Arguments Raise {A} e.

Definition obind {A B : Type} (m : outcome A) (f : A -> outcome B) : outcome B :=
  match m with
  | Ret a => f a
  | Raise e => Raise e
  end.

(** [bool(v)]: the truth value Python gives to [v] in [if v] and [v or w]. *)
Definition truthy (v : pyval) : bool :=
  match v with
  | PNone => false
  | PBool b => b
  | PInt z => negb (z =? 0)
  | PStr s => negb (s =? "")%string
  | PList l => match l with [] => false | _ => true end
  | PDict d => match d with [] => false | _ => true end
  end.

Fixpoint assoc (k : string) (d : dict) : option pyval :=
  match d with
  | [] => None
  | (k', v) :: d' => if (k =? k')%string then Some v else assoc k d'
  end.

(** [d.get(k, default)] on a dict. *)
Definition dict_get (d : dict) (k : string) (default : pyval) : pyval :=
  match assoc k d with
  | Some v => v
  | None => default
  end.

(** [v.get(k, default)] on an arbitrary value: only a dict has [get]. *)
Definition py_get (v : pyval) (k : string) (default : pyval) : outcome pyval :=
  match v with
  | PDict d => Ret (dict_get d k default)
  | _ => Raise AttributeError
  end.

(** The keys of a dict as Python strings, in order. *)
Definition keys (d : dict) : list pyval := map (fun kv => PStr (fst kv)) d.

(** [v.keys()], a list in the dict's order. *)
Definition py_keys (v : pyval) : outcome pyval :=
  match v with
  | PDict d => Ret (PList (keys d))
  | _ => Raise AttributeError
  end.

(** [a or b]: [b] is evaluated only when [a] is false. *)
Definition py_or (a b : outcome pyval) : outcome pyval :=
  obind a (fun x => if truthy x then Ret x else b).

(** [v == s] for a string literal [s]. *)
Definition py_eq_str (v : pyval) (s : string) : bool :=
  match v with
  | PStr s' => (s' =? s)%string
  | _ => false
  end.

(** [v == n] for an integer or boolean literal of numeric value [n]:
    [True == 1] and [False == 0] hold in Python. *)
Definition py_eq_num (v : pyval) (n : Z) : bool :=
  match v with
  | PInt z => z =? n
  | PBool b => Z.b2z b =? n
  | _ => false
  end.

(** ** [str.lower] and [int] *)

Definition lower_ascii (c : ascii) : ascii :=
  let n := nat_of_ascii c in
  if andb (Nat.leb 65 n) (Nat.leb n 90) then ascii_of_nat (n + 32) else c.

(** [s.lower()] on a byte string: the letters A-Z are mapped to a-z.
    This is Python's [lower] on every ASCII string ([is_ascii] below);
    on other strings Python also folds letters outside A-Z. *)
Fixpoint lower (s : string) : string :=
  match s with
  | EmptyString => EmptyString
  | String c s' => String (lower_ascii c) (lower s')
  end.

Definition is_space (c : ascii) : bool :=
  let n := nat_of_ascii c in
  orb (andb (Nat.leb 9 n) (Nat.leb n 13)) (Nat.eqb n 32).

Fixpoint lstrip (s : string) : string :=
  match s with
  | EmptyString => EmptyString
  | String c s' => if is_space c then lstrip s' else s
  end.

Fixpoint rstrip (s : string) : string :=
  match s with
  | EmptyString => EmptyString
  | String c s' =>
      match rstrip s' with
      | EmptyString => if is_space c then EmptyString else String c EmptyString
      | r => String c r
      end
  end.

Definition digit_of (c : ascii) : option Z :=
  let n := nat_of_ascii c in
  if andb (Nat.leb 48 n) (Nat.leb n 57) then Some (Z.of_nat (n - 48)) else None.

Fixpoint parse_digits (acc : Z) (s : string) : option Z :=
  match s with
  | EmptyString => Some acc
  | String c s' =>
      match digit_of c with
      | Some d => parse_digits (10 * acc + d) s'
      | None => None
      end
  end.

Definition parse_unsigned (s : string) : option Z :=
  match s with
  | EmptyString => None
  | _ => parse_digits 0 s
  end.

(** [int(s)] for a string, base 10: surrounding whitespace is dropped, a
    sign is allowed, at least one digit is required.  When this gives a
    number, Python's [int] gives the same one; it is Python's [int] on the
    strings of [plain_int_text] below, and Python accepts more outside
    them (digits and white space beyond ASCII, and [_] between digits
    since Python 3.6). *)
Definition int_of_string (s : string) : option Z :=
  match rstrip (lstrip s) with
  | String "-" r => option_map Z.opp (parse_unsigned r)
  | String "+" r => parse_unsigned r
  | r => parse_unsigned r
  end.

(** [int(v)]. *)
Definition py_int (v : pyval) : outcome Z :=
  match v with
  | PInt z => Ret z
  | PBool b => Ret (Z.b2z b)
  | PStr s => match int_of_string s with
              | Some z => Ret z
              | None => Raise ValueError
              end
  | _ => Raise TypeError
  end.

(** ** Where the string functions are exactly Python's *)

(** Every character is an ASCII character. *)
Fixpoint is_ascii (s : string) : bool :=
  match s with
  | EmptyString => true
  | String c s' => (nat_of_ascii c <? 128)%nat && is_ascii s'
  end.




(** Two characters are equal, or one is a letter A-Z and the other its
    lower-case form. *)
Definition same_char_ignoring_case (c d : ascii) : bool :=
  let n := nat_of_ascii c in
  let m := nat_of_ascii d in
  (n =? m)%nat
  || ((65 <=? n)%nat && (n <=? 90)%nat && (n + 32 =? m)%nat)
  || ((65 <=? m)%nat && (m <=? 90)%nat && (m + 32 =? n)%nat).

(** Two strings differ at most in the case of letters A-Z. *)
Fixpoint same_ignoring_case (a b : string) : bool :=
  match a, b with
  | EmptyString, EmptyString => true
  | String c a', String d b' =>
      same_char_ignoring_case c d && same_ignoring_case a' b'
  | _, _ => false
  end.

(** ** Events *)

(** The objects the framework hands to [do] in [options]: the request
    (its [all_data]), the response (its raw [data]), [g] (its audit
    object's [audit_data]) and the handler definition. *)
Record Options : Type := mkOptions {
  request_all_data : dict;
  response_data : string;
  audit_data : dict;
  handler_def : dict
}.

(** Calls into the collaborators, named as the handler imports them;
    [get_tokenowner] is the base handler's [_get_tokenowner(request)].
    A call is recorded when it is made, whether it returns or raises. *)
Inductive call : Type :=
| get_realms
| get_token_types
| set_realms (serial : pyval) (realms : list pyval) (add : bool)
| remove_token (serial : pyval)
| enable_token (serial : pyval) (enable : bool)
| unassign_token (serial : pyval)
| set_description (serial : pyval) (description : pyval)
| set_count_window (serial : pyval) (countwindow : Z)
| add_tokeninfo (serial : pyval) (key : pyval) (value : pyval)
| set_validity_period_start (serial : pyval) (user : pyval) (start : string)
| set_validity_period_end (serial : pyval) (user : pyval) (end_ : string)
| get_tokenowner (request : dict)
| init_token (param : dict) (user : pyval).

(** The records written with [log.info]. *)
Inductive logmsg : Type :=
| LogActionForToken (action : string) (serial : pyval)
| LogSettingRealm (serial : pyval) (realm : pyval)
| LogRequiresSerial
| LogInitializing
| LogEnrolled (serial : pyval).

Inductive event : Type :=
| ELog (m : logmsg)
| ECall (c : call).

(** A call changes a token unless it is one of the three lookups. *)
Definition is_mutation (c : call) : bool :=
  match c with
  | get_realms | get_token_types | get_tokenowner _ => false
  | _ => true
  end.

Definition calls (evs : list event) : list call :=
  flat_map (fun e => match e with ECall c => [c] | ELog _ => [] end) evs.

Definition mutations (evs : list event) : list call :=
  filter is_mutation (calls evs).

(** ** The handler's computations *)

(** A computation receives the collaborator calls made before it (the
    history, most recent first) and yields an outcome together with the
    events it adds, in the order in which they happen. *)
Definition M (A : Type) : Type := list call -> outcome A * list event.

Definition ret {A : Type} (a : A) : M A := fun _ => (Ret a, []).

Definition bind {A B : Type} (m : M A) (f : A -> M B) : M B :=
  fun h =>
    match m h with
    | (Ret a, evs) =>
        let (r, evs') := f a (rev_append (calls evs) h) in (r, evs ++ evs')
    | (Raise e, evs) => (Raise e, evs)
    end.

Definition lift {A : Type} (o : outcome A) : M A := fun _ => (o, []).

Definition log_info (m : logmsg) : M unit := fun _ => (Ret tt, [ELog m]).

Notation "x <- m ;; k" := (bind m (fun x => k))
  (at level 61, m at next level, right associativity).
Notation "m ;;; k" := (bind m (fun _ => k))
  (at level 61, right associativity).

Module ACTION_TYPE.
Definition SET_TOKENREALM := "set tokenrealm".
Definition DELETE := "delete".
Definition UNASSIGN := "unassign".
Definition DISABLE := "disable".
Definition ENABLE := "enable".
Definition INIT := "enroll".
Definition SET_DESCRIPTION := "set description".
Definition SET_VALIDITY := "set validity".
Definition SET_COUNTWINDOW := "set countwindow".
Definition SET_TOKENINFO := "set tokeninfo".
End ACTION_TYPE.

Module VALIDITY.
Definition START := "valid from".
Definition END := "valid till".
End VALIDITY.

Definition identifier := "Token".
Definition description := "This event handler can trigger new actions on tokens.".

(** [s in l] for a list of string literals. *)
Definition str_in (s : string) (l : list string) : bool :=
  existsb (String.eqb s) l.

(** The actions of [do]'s first branch, in the order of the source. *)
Definition target_actions : list string :=
  [ACTION_TYPE.SET_TOKENREALM; ACTION_TYPE.SET_DESCRIPTION;
   ACTION_TYPE.DELETE; ACTION_TYPE.DISABLE;
   ACTION_TYPE.ENABLE; ACTION_TYPE.UNASSIGN;
   ACTION_TYPE.SET_VALIDITY;
   ACTION_TYPE.SET_COUNTWINDOW;
   ACTION_TYPE.SET_TOKENINFO].

(** [handler_options.get("user") in ["1", 1, True]]. *)
Definition user_flag (v : pyval) : bool :=
  py_eq_str v "1" || py_eq_num v 1 || py_eq_num v (Z.b2z true).

(** Lines 201-203 of [do]:
    [request.all_data.get("serial") or
     content.get("detail", {}).get("serial") or
     g.audit_object.audit_data.get("serial")]. *)
Definition resolve_serial (all_data : dict) (content : pyval) (audit : dict)
  : outcome pyval :=
  py_or (py_or (Ret (dict_get all_data "serial" PNone))
               (obind (py_get content "detail" (PDict []))
                      (fun detail => py_get detail "serial" PNone)))
        (Ret (dict_get audit "serial" PNone)).

(** ** The handler *)

Section Handler.

(** [json.loads]: [None] stands for the decoder raising [ValueError]. *)
Variable json_loads : string -> option pyval.

(** What a collaborator answers to a call, given the calls made so far
    (most recent first): a value or an exception.  For [init_token] the
    answer stands for [t.token.serial] of the created token. *)
Variable answer : list call -> call -> outcome pyval.

(** [privacyidea.lib.utils.parse_date]: a [datetime], [None], or an
    exception; and [d.strftime(DATE_FORMAT)] of a [datetime]. *)
Variable datetime : Type.
Variable parse_date : pyval -> outcome (option datetime).
Variable strftime : datetime -> string.

(** [gettext.gettext], imported as [_]. *)
Variable gettext : string -> string.

Definition do_call (c : call) : M pyval := fun h => (answer h c, [ECall c]).

(** A call whose result is dropped. *)
Definition exec (c : call) : M unit := do_call c ;;; ret tt.

(** [d.strftime(DATE_FORMAT)] where [d] may be [None]. *)
Definition py_strftime (d : option datetime) : outcome string :=
  match d with
  | Some t => Ret (strftime t)
  | None => Raise AttributeError
  end.

(** The property [TokenEventHandler.actions]. *)
Definition actions : M pyval :=
  realms <- do_call get_realms ;;
  realm_list <- lift (py_keys realms) ;;
  tokentypes <- do_call get_token_types ;;
  ret (PDict
    [(ACTION_TYPE.SET_TOKENREALM, PDict
        [("realm", PDict
            [("type", PStr "str");
             ("required", PBool true);
             ("description", PStr (gettext "set a new realm of the token"));
             ("value", realm_list)]);
         ("only_realm", PDict
            [("type", PStr "bool");
             ("description", PStr (gettext
                "The new realm will be the only realm of the token. I.e. all other realms will be removed from this token. Otherwise the realm will be added to the token."))])]);
     (ACTION_TYPE.DELETE, PDict []);
     (ACTION_TYPE.UNASSIGN, PDict []);
     (ACTION_TYPE.DISABLE, PDict []);
     (ACTION_TYPE.ENABLE, PDict []);
     (ACTION_TYPE.INIT, PDict
        [("tokentype", PDict
            [("type", PStr "str");
             ("required", PBool true);
             ("description", PStr (gettext "Token type to create"));
             ("value", tokentypes)]);
         ("user", PDict
            [("type", PStr "bool");
             ("description", PStr (gettext
                "Assign token to user in request or tokenowner."))]);
         ("realm", PDict
            [("type", PStr "str");
             ("required", PBool false);
             ("description", PStr (gettext
                "Set the realm of the newly created token."));
             ("value", realm_list)])]);
     (ACTION_TYPE.SET_DESCRIPTION, PDict
        [("description", PDict
            [("type", PStr "str");
             ("description", PStr (gettext
                "The new description of the token."))])]);
     (ACTION_TYPE.SET_VALIDITY, PDict
        [(VALIDITY.START, PDict
            [("type", PStr "str");
             ("description", PStr (gettext
                "The token will be valid starting at the given date. Can be a fixed date or an offset like +10m, +24h, +7d."))]);
         (VALIDITY.END, PDict
            [("type", PStr "str");
             ("description", PStr (gettext
                "The token will be valid until the given date. Can be a fixed date or an offset like +10m, +24h, +7d."))])]);
     (ACTION_TYPE.SET_COUNTWINDOW, PDict
        [("count window", PDict
            [("type", PStr "str");
             ("required", PBool true);
             ("description", PStr (gettext
                "Set the new count window of the token."))])]);
     (ACTION_TYPE.SET_TOKENINFO, PDict
        [("key", PDict
            [("type", PStr "str");
             ("required", PBool true);
             ("description", PStr (gettext "Set this tokeninfo key."))]);
         ("value", PDict
            [("type", PStr "str");
             ("description", PStr (gettext
                "Set the above key the this value."))])])]).

(** Lines 214-250 of [do]: the [if]/[elif] chain on the lowered action,
    run when a serial was found. *)
Definition do_on_token (la : string) (serial handler_options : pyval) : M unit :=
  if (la =? ACTION_TYPE.SET_TOKENREALM)%string then
    realm <- lift (py_get handler_options "realm" PNone) ;;
    only_realm <- lift (py_get handler_options "only_realm" PNone) ;;
    log_info (LogSettingRealm serial realm) ;;;
    exec (set_realms serial [realm] true)
  else if (la =? ACTION_TYPE.DELETE)%string then
    exec (remove_token serial)
  else if (la =? ACTION_TYPE.DISABLE)%string then
    exec (enable_token serial false)
  else if (la =? ACTION_TYPE.ENABLE)%string then
    exec (enable_token serial true)
  else if (la =? ACTION_TYPE.UNASSIGN)%string then
    exec (unassign_token serial)
  else if (la =? ACTION_TYPE.SET_DESCRIPTION)%string then
    d <- lift (py_get handler_options "description" (PStr "")) ;;
    exec (set_description serial d)
  else if (la =? ACTION_TYPE.SET_COUNTWINDOW)%string then
    v <- lift (py_get handler_options "count window" (PInt 50)) ;;
    n <- lift (py_int v) ;;
    exec (set_count_window serial n)
  else if (la =? ACTION_TYPE.SET_TOKENINFO)%string then
    k <- lift (py_get handler_options "key" PNone) ;;
    v <- lift (py_or (py_get handler_options "value" PNone) (Ret (PStr ""))) ;;
    exec (add_tokeninfo serial k v)
  else if (la =? ACTION_TYPE.SET_VALIDITY)%string then
    start_date <- lift (py_get handler_options VALIDITY.START PNone) ;;
    end_date <- lift (py_get handler_options VALIDITY.END PNone) ;;
    (if truthy start_date then
       d <- lift (parse_date start_date) ;;
       s <- lift (py_strftime d) ;;
       exec (set_validity_period_start serial PNone s)
     else ret tt) ;;;
    (if truthy end_date then
       d <- lift (parse_date end_date) ;;
       s <- lift (py_strftime d) ;;
       exec (set_validity_period_end serial PNone s)
     else ret tt)
  else ret tt.

(** Lines 256-266 of [do]: the enroll branch. *)
Definition do_enroll (all_data : dict) (handler_options : pyval) : M unit :=
  log_info LogInitializing ;;;
  u <- lift (py_get handler_options "user" PNone) ;;
  user <- (if user_flag u then do_call (get_tokenowner all_data)
           else ret PNone) ;;
  ty <- lift (py_get handler_options "tokentype" PNone) ;;
  realm <- lift (py_get handler_options "realm" (PStr "")) ;;
  t <- do_call (init_token [("type", ty); ("genkey", PInt 1); ("realm", realm)]
                           user) ;;
  log_info (LogEnrolled t).

(** [TokenEventHandler.do(action, options)]. *)
Definition do (action : string) (options : Options) : M pyval :=
  let ret_ := PBool true in
  content <- lift (match json_loads (response_data options) with
                   | Some c => Ret c
                   | None => Raise ValueError
                   end) ;;
  let handler_options := dict_get (handler_def options) "options" (PDict []) in
  serial <- lift (resolve_serial (request_all_data options) content
                                 (audit_data options)) ;;
  (if str_in (lower action) target_actions then
     if truthy serial then
       log_info (LogActionForToken action serial) ;;;
       do_on_token (lower action) serial handler_options
     else log_info LogRequiresSerial
   else ret tt) ;;;
  (if (lower action =? ACTION_TYPE.INIT)%string then
     do_enroll (request_all_data options) handler_options
   else ret tt) ;;;
  ret ret_.

End Handler.

Arguments py_strftime {datetime} strftime d.
Arguments do_on_token answer {datetime} parse_date strftime la serial handler_options.
Arguments do json_loads answer {datetime} parse_date strftime action options.

(** The ten identifiers of [ACTION_TYPE]. *)
Definition registered_actions : list string :=
  [ACTION_TYPE.SET_TOKENREALM; ACTION_TYPE.DELETE; ACTION_TYPE.UNASSIGN;
   ACTION_TYPE.DISABLE; ACTION_TYPE.ENABLE; ACTION_TYPE.INIT;
   ACTION_TYPE.SET_DESCRIPTION; ACTION_TYPE.SET_VALIDITY;
   ACTION_TYPE.SET_COUNTWINDOW; ACTION_TYPE.SET_TOKENINFO].

(** ** Target resolution as the specification words it *)

(** A candidate counts when it is neither null nor the empty string. *)
Definition nonempty_nonnull (v : pyval) : bool :=
  match v with
  | PNone => false
  | PStr EmptyString => false
  | _ => true
  end.

(** First candidate that counts, in the order request data, response
    detail, audit data; the audit candidate when none of the first two
    does. *)
Definition select_by_precedence (req det aud : pyval) : pyval :=
  if nonempty_nonnull req then req
  else if nonempty_nonnull det then det
  else aud.

(** A serial field holds a string or null. *)
Definition serial_like (v : pyval) : Prop :=
  v = PNone \/ exists s, v = PStr s.

(** [schema[action][option]["value"]] in the dict [actions] returns, when
    each level is present. *)
Definition allowed_values (schema : dict) (action opt : string)
  : option pyval :=
  match assoc action schema with
  | Some (PDict opts) =>
      match assoc opt opts with
      | Some (PDict descr) => assoc "value" descr
      | _ => None
      end
  | _ => None
  end.

(** ** Notions used to state what the handler does with its calls *)

(** Replays a sequence of calls against the collaborators, starting from
    the history [h]: the exception of the first call that raises, if one
    does. *)
Fixpoint first_failure (answer : list call -> call -> outcome pyval)
    (h : list call) (cs : list call) : option pyexc :=
  match cs with
  | [] => None
  | c :: cs' =>
      match answer h c with
      | Ret _ => first_failure answer (c :: h) cs'
      | Raise e => Some e
      end
  end.

(** The token a call is about: the [serial] argument of the calls that
    take one. *)
Definition serial_of_call (c : call) : option pyval :=
  match c with
  | set_realms s _ _ | remove_token s | enable_token s _ | unassign_token s
  | set_description s _ | set_count_window s _ | add_tokeninfo s _ _
  | set_validity_period_start s _ _ | set_validity_period_end s _ _ => Some s
  | get_realms | get_token_types | get_tokenowner _ | init_token _ _ => None
  end.

(** The option names the dict [actions] returns declares for an action. *)
Definition option_names (schema : dict) (action : string) : list string :=
  match assoc action schema with
  | Some (PDict opts) => map fst opts
  | _ => []
  end.

(** A decoded body in which [content.get("detail", {}).get("serial")] can
    be evaluated: an object whose detail, when present, is an object. *)
Definition has_detail_section (content : pyval) : Prop :=
  exists cd dd, content = PDict cd /\ dict_get cd "detail" (PDict []) = PDict dd.

(** ** A sample environment

    Concrete collaborators on which the handler can be run. *)
Module Sample.

Definition dq : string := String (ascii_of_nat 34) EmptyString.

Definition quoted (s : string) : string := (dq ++ s ++ dq)%string.

(** The body [{"detail": {"serial": "B"}}]. *)
Definition body_detail_B : string :=
  ("{" ++ quoted "detail" ++ ": {" ++ quoted "serial" ++ ": "
       ++ quoted "B" ++ "}}")%string.

(** A decoder for the bodies used below; any other body is rejected. *)
Definition json_loads (s : string) : option pyval :=
  if (s =? "{}")%string then Some (PDict [])
  else if (s =? body_detail_B)%string then
    Some (PDict [("detail", PDict [("serial", PStr "B")])])
  else if (s =? "[]")%string then Some (PList [])
  else if (s =? "null")%string then Some PNone
  else None.

(** Realms and token types grow once a first pair of enumerations
    has been answered; the owner lookup and the enrollment answer
    with fixed values; every other call succeeds with [None]. *)
Definition answer (h : list call) (c : call) : outcome pyval :=
  match c with
  | get_realms =>
      if (length h <? 2)%nat then Ret (PDict [("realm1", PDict [])])
      else Ret (PDict [("realm1", PDict []); ("realm2", PDict [])])
  | get_token_types =>
      if (length h <? 2)%nat then Ret (PList [PStr "hotp"; PStr "totp"])
      else Ret (PList [PStr "hotp"; PStr "totp"; PStr "spass"])
  | get_tokenowner _ => Ret (PStr "cornelius")
  | init_token _ _ => Ret (PStr "OATH0001")
  | _ => Ret PNone
  end.

Definition datetime : Type := string.

(** Knows one absolute date and one offset, evaluated at a fixed
    moment; other strings give [None], other values have no [strip]. *)
Definition parse_date (v : pyval) : outcome (option datetime) :=
  match v with
  | PStr s =>
      if (s =? "2016-12-23")%string then Ret (Some "2016-12-23T00:00+0000")
      else if (s =? "+1d")%string then Ret (Some "2016-11-15T10:00+0000")
      else Ret None
  | _ => Raise AttributeError
  end.

Definition strftime (d : datetime) : string := d.

Definition gettext (s : string) : string := s.

Definition do := do json_loads answer parse_date strftime.

Definition actions := actions answer gettext.

Definition handler (opts : dict) : dict := [("options", PDict opts)].

(** An event whose request names the token ["A"], with the given
    handler options. *)
Definition on_token_A (opts : dict) : Options :=
  mkOptions [("serial", PStr "A")] "{}" [] (handler opts).

(** An event in which no serial can be found. *)
Definition without_serial (opts : dict) : Options :=
  mkOptions [] "{}" [] (handler opts).

(** An event whose response body is an HTML page. *)
Definition html_response : Options :=
  mkOptions [("serial", PStr "A")] "<html></html>" [] (handler []).

(** Collaborators that know neither the token nor a user: removing a
    token and looking up the owner raise; the rest is as in [answer]. *)
Definition refusing (h : list call) (c : call) : outcome pyval :=
  match c with
  | remove_token _ => Raise (CollaboratorError "token not found")
  | get_tokenowner _ => Raise (CollaboratorError "no user in request")
  | set_validity_period_start _ _ _ => Raise (CollaboratorError "token not found")
  | _ => answer h c
  end.

(** An event whose response body is the JSON list [[]], with no serial
    in the request. *)
Definition list_response (opts : dict) : Options :=
  mkOptions [] "[]" [("serial", PStr "C")] (handler opts).

(** An event with a serial in the request and a handler definition
    whose options are null. *)
Definition null_options : Options :=
  mkOptions [("serial", PStr "A")] "{}" [] [("options", PNone)].

(** An event whose only serial is in the response detail and the audit
    data. *)
Definition serial_in_body (opts : dict) : Options :=
  mkOptions [] body_detail_B [("serial", PStr "C")] (handler opts).

(** The dict [actions] returns in the sample environment. *)
Definition schema : dict :=
  match fst (actions []) with
  | Ret (PDict s) => s
  | _ => []
  end.

End Sample.

(** ** Properties *)

Example py_int_50 : py_int (PStr " 50 ") = Ret 50.
Proof. reflexivity. Qed.

Example py_int_neg : py_int (PStr "-7") = Ret (-7).
Proof. reflexivity. Qed.

Example py_int_bad : py_int (PStr "abc") = Raise ValueError.
Proof. reflexivity. Qed.

Example lower_mixed : lower "Set TokenRealm" = "set tokenrealm".
Proof. reflexivity. Qed.

Example sample_delete :
  Sample.do "Delete"
    (mkOptions [("serial", PStr "A")] Sample.body_detail_B [] (Sample.handler []))
    []
  = (Ret (PBool true),
     [ELog (LogActionForToken "Delete" (PStr "A"));
      ECall (remove_token (PStr "A"))]).
Proof. reflexivity. Qed.

Example sample_enroll :
  Sample.do "enroll"
    (mkOptions [] "{}" []
       (Sample.handler [("tokentype", PStr "hotp"); ("user", PStr "1")]))
    []
  = (Ret (PBool true),
     [ELog LogInitializing;
      ECall (get_tokenowner []);
      ECall (init_token [("type", PStr "hotp"); ("genkey", PInt 1);
                         ("realm", PStr "")] (PStr "cornelius"));
      ELog (LogEnrolled (PStr "OATH0001"))]).
Proof. reflexivity. Qed.

Lemma lower_ascii_idempotent (c : ascii) : lower_ascii (lower_ascii c) = lower_ascii c.
Proof.
  destruct c as [[] [] [] [] [] [] [] []]; reflexivity.
Qed.

Lemma lower_idempotent (s : string) : lower (lower s) = lower s.
Proof.
  induction s as [|c s IH]; simpl.
  - reflexivity.
  - now rewrite lower_ascii_idempotent, IH.
Qed.

Lemma str_in_In (s : string) (l : list string) : str_in s l = true <-> In s l.
Proof.
  unfold str_in. rewrite existsb_exists. split.
  - intros (x & Hx & E). apply String.eqb_eq in E. now subst.
  - intros H. exists s. split; [assumption | apply String.eqb_refl].
Qed.

Lemma target_is_not_enroll (la : string) :
  str_in la target_actions = true -> (la =? ACTION_TYPE.INIT)%string = false.
Proof.
  intros H. destruct (String.eqb_spec la ACTION_TYPE.INIT) as [E|]; [|reflexivity].
  rewrite E in H. discriminate H.
Qed.

Lemma unregistered_is_no_target (la : string) :
  str_in la registered_actions = false ->
  str_in la target_actions = false /\ (la =? ACTION_TYPE.INIT)%string = false.
Proof.
  unfold str_in, registered_actions, target_actions. simpl. intros H.
  repeat (apply orb_false_elim in H; destruct H as [? H]).
  repeat match goal with E : (la =? _)%string = false |- _ => rewrite E; clear E end.
  split; reflexivity.
Qed.

Lemma serial_like_truthy (v : pyval) :
  serial_like v -> truthy v = nonempty_nonnull v.
Proof.
  intros [-> | [s ->]]; [reflexivity|]. destruct s; reflexivity.
Qed.

Section Properties.

Variable json_loads : string -> option pyval.
Variable answer : list call -> call -> outcome pyval.
Variable datetime : Type.
Variable parse_date : pyval -> outcome (option datetime).
Variable strftime : datetime -> string.

Local Abbreviation run := (do json_loads answer parse_date strftime).

(** C1. The serial is chosen by precedence: the request's ["serial"]
    when it is neither null nor empty, else the ["serial"] of the
    response's detail section when it is neither null nor empty, else
    the audit data's ["serial"].  Serial fields hold strings or null;
    the response body is an object whose detail section, when present,
    is an object. *)
Theorem resolve_serial_precedence (all_data cd dd audit : dict) :
  dict_get cd "detail" (PDict []) = PDict dd ->
  serial_like (dict_get all_data "serial" PNone) ->
  serial_like (dict_get dd "serial" PNone) ->
  resolve_serial all_data (PDict cd) audit
  = Ret (select_by_precedence (dict_get all_data "serial" PNone)
                              (dict_get dd "serial" PNone)
                              (dict_get audit "serial" PNone)).
Proof.
  intros Hdet Hreq Hdd.
  unfold resolve_serial, select_by_precedence, py_or, py_get, obind.
  rewrite <- (serial_like_truthy _ Hreq), <- (serial_like_truthy _ Hdd).
  destruct (truthy (dict_get all_data "serial" PNone)) eqn:Er; cbv beta iota.
  - now rewrite Er.
  - rewrite Hdet. cbv beta iota.
    destruct (truthy (dict_get dd "serial" PNone)); reflexivity.
Qed.

(** C2. For each of the nine actions that need a token, when neither
    the request data, nor the detail section of the response, nor the
    audit data holds a serial that counts, [do] calls no collaborator
    (it only logs that a serial is required) and returns [True]. *)
Theorem do_without_serial (action : string) (options : Options)
    (cd dd : dict) (h : list call) :
  str_in (lower action) target_actions = true ->
  json_loads (response_data options) = Some (PDict cd) ->
  dict_get cd "detail" (PDict []) = PDict dd ->
  truthy (dict_get (request_all_data options) "serial" PNone) = false ->
  truthy (dict_get dd "serial" PNone) = false ->
  truthy (dict_get (audit_data options) "serial" PNone) = false ->
  run action options h = (Ret (PBool true), [ELog LogRequiresSerial]).
Proof.
  intros Hact Hjson Hdet Hreq Hdd Haud.
  unfold do, bind, lift. rewrite Hjson.
  unfold resolve_serial, py_or, py_get, obind.
  rewrite Hreq, Hdet, Hdd. cbv beta iota.
  rewrite Hact, Haud, (target_is_not_enroll _ Hact). reflexivity.
Qed.

(** C10. The response body is decoded before anything else: when it is
    not valid JSON, [do] raises [ValueError] for every action name, and
    neither a log record nor a collaborator call precedes the
    exception. *)
Theorem do_requires_json_body (action : string) (options : Options)
    (h : list call) :
  json_loads (response_data options) = None ->
  run action options h = (Raise ValueError, []).
Proof.
  intros Hjson. unfold do, bind, lift. now rewrite Hjson.
Qed.

Lemma bind_lift_ret {A B : Type} (a : A) (f : A -> M B) (h : list call) :
  bind (lift (Ret a)) f h = f a h.
Proof.
  unfold bind, lift; simpl. now destruct (f a h).
Qed.

(** Once the body is decoded and the serial resolved, [do] is its two
    dispatch statements followed by [return ret]. *)
Lemma do_resolved (action : string) (options : Options)
    (content serial : pyval) (h : list call) :
  json_loads (response_data options) = Some content ->
  resolve_serial (request_all_data options) content (audit_data options)
  = Ret serial ->
  run action options h
  = ((if str_in (lower action) target_actions then
        if truthy serial then
          log_info (LogActionForToken action serial) ;;;
          do_on_token answer parse_date strftime (lower action) serial
            (dict_get (handler_def options) "options" (PDict []))
        else log_info LogRequiresSerial
      else ret tt) ;;;
     (if (lower action =? ACTION_TYPE.INIT)%string then
        do_enroll answer (request_all_data options)
          (dict_get (handler_def options) "options" (PDict []))
      else ret tt) ;;;
     ret (PBool true)) h.
Proof.
  intros Hjson Hres. unfold do.
  rewrite Hjson, bind_lift_ret, Hres, bind_lift_ret. reflexivity.
Qed.

Lemma user_flag_spec (u : pyval) :
  user_flag u = true <-> u = PStr "1" \/ u = PInt 1 \/ u = PBool true.
Proof.
  unfold user_flag. split.
  - destruct u as [|b|z|s|l|d]; simpl; try discriminate.
    + destruct b; [auto | discriminate].
    + rewrite orb_diag, Z.eqb_eq. intros ->. auto.
    + rewrite !orb_false_r, String.eqb_eq. intros ->. auto.
  - intros [-> | [-> | ->]]; reflexivity.
Qed.

(** C4. On enroll, the owner is looked up in the request exactly when
    the option ["user"] is the string ["1"], the integer [1] or the
    boolean [True], and the looked-up owner is the one the token is
    created for, in the same way for the three values; when ["user"] is
    absent or has any other value, no lookup happens and the token is
    created with no owner. *)
Theorem enroll_owner (action : string) (options : Options)
    (content serial : pyval) (ho : dict) (h : list call) :
  lower action = ACTION_TYPE.INIT ->
  json_loads (response_data options) = Some content ->
  resolve_serial (request_all_data options) content (audit_data options)
  = Ret serial ->
  dict_get (handler_def options) "options" (PDict []) = PDict ho ->
  let u := dict_get ho "user" PNone in
  let param := [("type", dict_get ho "tokentype" PNone);
                ("genkey", PInt 1);
                ("realm", dict_get ho "realm" (PStr ""))] in
  let lookup := get_tokenowner (request_all_data options) in
  (u = PStr "1" \/ u = PInt 1 \/ u = PBool true ->
   forall owner, answer h lookup = Ret owner ->
     calls (snd (run action options h)) = [lookup; init_token param owner])
  /\
  (~ (u = PStr "1" \/ u = PInt 1 \/ u = PBool true) ->
   calls (snd (run action options h)) = [init_token param PNone]).
Proof.
  intros Hact Hjson Hres Hho u param lookup.
  rewrite (do_resolved _ _ _ _ _ Hjson Hres), Hact, Hho.
  change (str_in ACTION_TYPE.INIT target_actions) with false.
  change (ACTION_TYPE.INIT =? ACTION_TYPE.INIT)%string with true.
  cbv beta iota.
  unfold do_enroll, bind, ret, lift, log_info, do_call, py_get. simpl.
  fold u. split.
  - intros Hu owner Hown. apply user_flag_spec in Hu. rewrite Hu.
    fold lookup. rewrite Hown. simpl. fold param.
    destruct (answer (lookup :: h) (init_token param owner)); reflexivity.
  - intros Hu. destruct (user_flag u) eqn:E.
    + apply user_flag_spec in E. contradiction.
    + simpl. fold param.
      destruct (answer h (init_token param PNone)); reflexivity.
Qed.

Lemma calls_app (evs evs' : list event) :
  calls (evs ++ evs') = calls evs ++ calls evs'.
Proof.
  unfold calls. apply flat_map_app.
Qed.

Lemma bind_log {B : Type} (m : logmsg) (k : unit -> M B) (h : list call) :
  bind (log_info m) k h = let (r, evs) := k tt h in (r, ELog m :: evs).
Proof.
  reflexivity.
Qed.

(** The continuation of a [bind] sees its first part only through the
    value it returns and the calls it made. *)
Lemma bind_same_calls {A B : Type} (m m' : M A) (f : A -> M B) (h : list call) :
  fst (m' h) = fst (m h) /\ calls (snd (m' h)) = calls (snd (m h)) ->
  fst (bind m' f h) = fst (bind m f h) /\
  calls (snd (bind m' f h)) = calls (snd (bind m f h)).
Proof.
  unfold bind.
  destruct (m' h) as [o' evs'], (m h) as [o evs]; simpl.
  intros [-> Hc]. destruct o as [a|e]; simpl.
  - rewrite <- Hc.
    destruct (f a (rev_append (calls evs') h)) as [r evs'']; simpl.
    rewrite !calls_app, Hc. split; reflexivity.
  - split; [reflexivity | assumption].
Qed.

Lemma bind_same_calls_cont {A B : Type} (m : M A) (f f' : A -> M B)
    (h : list call) :
  (forall a h', fst (f' a h') = fst (f a h') /\
                calls (snd (f' a h')) = calls (snd (f a h'))) ->
  fst (bind m f' h) = fst (bind m f h) /\
  calls (snd (bind m f' h)) = calls (snd (bind m f h)).
Proof.
  intros Hf. unfold bind. destruct (m h) as [[a|e] evs]; [|split; reflexivity].
  specialize (Hf a (rev_append (calls evs) h)).
  destruct (f' a (rev_append (calls evs) h)), (f a (rev_append (calls evs) h)).
  simpl in *. destruct Hf as [-> Hc]. rewrite !calls_app, Hc.
  split; reflexivity.
Qed.

Lemma same_char_lower (c d : ascii) :
  same_char_ignoring_case c d = true -> lower_ascii c = lower_ascii d.
Proof.
  unfold same_char_ignoring_case, lower_ascii.
  pose proof (ascii_nat_embedding c) as Ec.
  pose proof (ascii_nat_embedding d) as Ed.
  revert Ec Ed. generalize (nat_of_ascii c) (nat_of_ascii d).
  intros n m <- <- H.
  apply orb_true_iff in H. destruct H as [H | H].
  - apply orb_true_iff in H. destruct H as [H | H].
    + apply Nat.eqb_eq in H. now subst m.
    + apply andb_true_iff in H. destruct H as [H E].
      apply andb_true_iff in H. destruct H as [L U].
      apply Nat.eqb_eq in E. rewrite L, U. simpl.
      apply Nat.leb_le in L. apply Nat.leb_le in U.
      destruct (Nat.leb_spec m 90) as [Hm|Hm]; [lia|].
      rewrite andb_false_r. now rewrite E.
  - apply andb_true_iff in H. destruct H as [H E].
    apply andb_true_iff in H. destruct H as [L U].
    apply Nat.eqb_eq in E. rewrite L, U. simpl.
    apply Nat.leb_le in L. apply Nat.leb_le in U.
    destruct (Nat.leb_spec n 90) as [Hn|Hn]; [lia|].
    rewrite andb_false_r. now rewrite E.
Qed.

Lemma same_ignoring_case_lower (a b : string) :
  same_ignoring_case a b = true -> lower a = lower b.
Proof.
  revert b. induction a as [|c a IH]; intros [|d b]; simpl;
    try discriminate; [reflexivity|].
  intros H. apply andb_true_iff in H. destruct H as [Hc Hs].
  now rewrite (same_char_lower _ _ Hc), (IH _ Hs).
Qed.

(** [do] sees the action name through its lower-case form only, up to
    the log record that quotes it. *)
Lemma do_same_lower (action action' : string) (options : Options)
    (h : list call) :
  lower action' = lower action ->
  fst (run action' options h) = fst (run action options h) /\
  calls (snd (run action' options h)) = calls (snd (run action options h)).
Proof.
  intros Hlow. unfold do. rewrite Hlow.
  apply bind_same_calls_cont. intros content h1.
  apply bind_same_calls_cont. intros serial h2.
  apply bind_same_calls.
  destruct (str_in (lower action) target_actions); [|split; reflexivity].
  destruct (truthy serial); [|split; reflexivity].
  rewrite !bind_log.
  destruct (do_on_token answer parse_date strftime (lower action) serial
              (dict_get (handler_def options) "options" (PDict [])) h2).
  split; reflexivity.
Qed.

(** C5. An action name of ASCII characters whose lower-case form is none
    of the ten registered identifiers makes [do] call no collaborator
    and write no log record, and [do] returns [True] once the response
    body is decoded and the serial expression evaluated.  Matching is
    case-insensitive: two action names with the same lower-case form
    make [do] perform the same collaborator calls with the same outcome,
    and so a name that differs from a registered identifier only in the
    case of its letters is handled as that identifier. *)
Theorem do_unrecognized_action (action : string) (options : Options)
    (h : list call) :
  (is_ascii action = true ->
   str_in (lower action) registered_actions = false ->
   snd (run action options h) = [] /\
   forall content serial,
     json_loads (response_data options) = Some content ->
     resolve_serial (request_all_data options) content (audit_data options)
     = Ret serial ->
     run action options h = (Ret (PBool true), []))
  /\
  (forall action',
     lower action' = lower action ->
     fst (run action' options h) = fst (run action options h) /\
     calls (snd (run action' options h)) = calls (snd (run action options h)))
  /\
  (forall id,
     In id registered_actions ->
     same_ignoring_case action id = true ->
     fst (run action options h) = fst (run id options h) /\
     calls (snd (run action options h)) = calls (snd (run id options h))).
Proof.
  refine (conj _ (conj _ _)).
  - intros _ Hun.
    destruct (unregistered_is_no_target _ Hun) as [Ht Hi].
    assert (Hok : forall content serial,
               json_loads (response_data options) = Some content ->
               resolve_serial (request_all_data options) content
                              (audit_data options) = Ret serial ->
               run action options h = (Ret (PBool true), [])).
    { intros content serial Hjson Hres.
      rewrite (do_resolved _ _ _ _ _ Hjson Hres), Ht, Hi. reflexivity. }
    split; [|exact Hok].
    destruct (json_loads (response_data options)) as [content|] eqn:Hjson.
    + destruct (resolve_serial (request_all_data options) content
                               (audit_data options)) as [serial|e] eqn:Hres.
      * now rewrite (Hok content serial).
      * unfold do, bind, lift. now rewrite Hjson, Hres.
    + unfold do, bind, lift. now rewrite Hjson.
  - intros action' Hlow. now apply do_same_lower.
  - intros id Hid Hsame. apply do_same_lower.
    now rewrite (same_ignoring_case_lower _ _ Hsame).
Qed.

(** What [do] does for a target action once a serial is found. *)
Lemma do_on_found_serial (action : string) (options : Options)
    (content serial : pyval) (h : list call) :
  json_loads (response_data options) = Some content ->
  resolve_serial (request_all_data options) content (audit_data options)
  = Ret serial ->
  truthy serial = true ->
  str_in (lower action) target_actions = true ->
  run action options h
  = ((log_info (LogActionForToken action serial) ;;;
      do_on_token answer parse_date strftime (lower action) serial
        (dict_get (handler_def options) "options" (PDict []))) ;;;
     ret (PBool true)) h.
Proof.
  intros Hjson Hres Hser Hact.
  rewrite (do_resolved _ _ _ _ _ Hjson Hres), Hact, Hser,
    (target_is_not_enroll _ Hact).
  unfold bind, ret. simpl.
  destruct (do_on_token answer parse_date strftime (lower action) serial
              (dict_get (handler_def options) "options" (PDict [])) h)
    as [[[]|e] evs]; simpl; rewrite ?app_nil_r; reflexivity.
Qed.


(** Case analysis on the next thing the handler's result depends on:
    a collaborator's answer, a parsed date, a truth value. *)
Ltac next_case :=
  match goal with
  | |- context [answer ?hh ?c] => destruct (answer hh c) eqn:?
  | |- context [parse_date ?v] => destruct (parse_date v) as [[?|]|?] eqn:?
  | |- context [py_int ?v] => destruct (py_int v) eqn:?
  | |- context [user_flag ?v] => destruct (user_flag v) eqn:?
  | |- context [truthy ?v] => destruct (truthy v) eqn:?
  end.

Ltac run_handler :=
  unfold do_on_token, do_enroll, exec, bind, ret, lift, log_info, do_call,
    py_get, py_or, obind, py_strftime;
  simpl;
  repeat (next_case; simpl).

(** C7. With a serial found, set validity handles its two bounds
    independently.  When only ["valid from"] is given (and parses to a
    date), the only collaborator call sets the start of the validity
    period; when only ["valid till"] is given, the only call sets the
    end.  A bound that is absent from the options is never set,
    whatever the other one is.  When both are given and the first call
    returns, both are set, start first. *)
Theorem set_validity_independent (action : string) (options : Options)
    (content serial : pyval) (ho : dict) (h : list call) :
  lower action = ACTION_TYPE.SET_VALIDITY ->
  json_loads (response_data options) = Some content ->
  resolve_serial (request_all_data options) content (audit_data options)
  = Ret serial ->
  truthy serial = true ->
  dict_get (handler_def options) "options" (PDict []) = PDict ho ->
  let start_date := dict_get ho VALIDITY.START PNone in
  let end_date := dict_get ho VALIDITY.END PNone in
  let performed := calls (snd (run action options h)) in
  (forall d,
     truthy start_date = true -> parse_date start_date = Ret (Some d) ->
     assoc VALIDITY.END ho = None ->
     performed = [set_validity_period_start serial PNone (strftime d)])
  /\
  (forall d,
     truthy end_date = true -> parse_date end_date = Ret (Some d) ->
     assoc VALIDITY.START ho = None ->
     performed = [set_validity_period_end serial PNone (strftime d)])
  /\
  (assoc VALIDITY.START ho = None ->
   forall s u x, ~ In (set_validity_period_start s u x) performed)
  /\
  (assoc VALIDITY.END ho = None ->
   forall s u x, ~ In (set_validity_period_end s u x) performed)
  /\
  (forall d d' r,
     truthy start_date = true -> parse_date start_date = Ret (Some d) ->
     truthy end_date = true -> parse_date end_date = Ret (Some d') ->
     answer h (set_validity_period_start serial PNone (strftime d)) = Ret r ->
     performed = [set_validity_period_start serial PNone (strftime d);
                  set_validity_period_end serial PNone (strftime d')]).
Proof.
  intros Hact Hjson Hres Hser Hho start_date end_date performed.
  assert (Ht : str_in (lower action) target_actions = true)
    by (rewrite Hact; reflexivity).
  subst performed.
  rewrite (do_on_found_serial _ _ _ _ _ Hjson Hres Hser Ht), Hact, Hho.
  unfold do_on_token, py_get. fold start_date end_date.
  change ((ACTION_TYPE.SET_VALIDITY =? ACTION_TYPE.SET_TOKENREALM)%string)
    with false.
  cbv beta iota.
  assert (Hnone : forall k, assoc k ho = None -> dict_get ho k PNone = PNone)
    by (intros k Hk; unfold dict_get; now rewrite Hk).
  repeat split.
  - intros d Hs Hp He. apply Hnone in He. fold end_date in He.
    rewrite He. unfold exec, bind, ret, lift, log_info, do_call, py_strftime.
    simpl. rewrite Hs, Hp. simpl.
    destruct (answer h _); reflexivity.
  - intros d He Hp Hs. apply Hnone in Hs. fold start_date in Hs.
    rewrite Hs. unfold exec, bind, ret, lift, log_info, do_call, py_strftime.
    simpl. rewrite He, Hp. simpl.
    destruct (answer h _); reflexivity.
  - intros Hs s u x. apply Hnone in Hs. fold start_date in Hs. rewrite Hs.
    run_handler; intuition discriminate.
  - intros He s u x. apply Hnone in He. fold end_date in He. rewrite He.
    run_handler; intuition discriminate.
  - intros d d' r Hs Hp He Hp' Hr.
    unfold exec, bind, ret, lift, log_info, do_call, py_strftime.
    simpl. rewrite Hs, Hp. simpl. rewrite Hr. simpl. rewrite He, Hp'. simpl.
    destruct (answer (_ :: h) _); reflexivity.
Qed.

Ltac settle :=
  repeat split; intros; simpl in *; try lia;
  repeat match goal with
         | H : False |- _ => contradiction
         | H : ?x <> ?x |- _ => now contradiction H
         | H : _ \/ _ |- _ => destruct H
         | H : _ = ACTION_TYPE.INIT |- _ => discriminate H
         | H : ?c = _ |- _ => is_var c; subst c; simpl in *
         | H : _ = ?c |- _ => is_var c; subst c; simpl in *
         end;
  try discriminate.

(** C8, as the code has it. One invocation of [do] performs at most one
    mutating collaborator call, except for set validity, which performs
    at most two (the start bound, then the end bound).  The only
    non-mutating call [do] makes is the owner lookup of enroll, and
    enroll's calls are at most that lookup followed by the creation. *)
Theorem do_mutation_bound (action : string) (options : Options)
    (h : list call) :
  let evs := snd (run action options h) in
  let lookup := get_tokenowner (request_all_data options) in
  (lower action <> ACTION_TYPE.SET_VALIDITY ->
   (length (mutations evs) <= 1)%nat)
  /\
  (length (mutations evs) <= 2)%nat
  /\
  (forall c, In c (calls evs) -> is_mutation c = false ->
             lower action = ACTION_TYPE.INIT /\ c = lookup)
  /\
  (lower action = ACTION_TYPE.INIT ->
   exists param user,
     calls evs = [] \/ calls evs = [lookup] \/
     calls evs = [init_token param user] \/
     calls evs = [lookup; init_token param user]).
Proof.
  intros evs lookup. subst evs lookup. unfold do.
  destruct (json_loads (response_data options)) as [content|].
  2:{ simpl. repeat split; intros; try lia; try contradiction.
      exists [], PNone. auto. }
  rewrite bind_lift_ret.
  destruct (resolve_serial (request_all_data options) content
                           (audit_data options)) as [serial|e].
  2:{ simpl. repeat split; intros; try lia; try contradiction.
      exists [], PNone. auto. }
  rewrite bind_lift_ret.
  generalize (dict_get (handler_def options) "options" (PDict [])).
  intros ho.
  remember (lower action) as la eqn:Hla. clear Hla.
  destruct (str_in la target_actions) eqn:Ht.
  - apply str_in_In in Ht. simpl in Ht.
    repeat (destruct Ht as [<- | Ht]); try contradiction.
    all: destruct ho; run_handler.
    all: settle.
  -       destruct (la =? ACTION_TYPE.INIT)%string eqn:Hi.
    + apply String.eqb_eq in Hi. subst la.
      destruct ho; run_handler. all: settle.
      all: try reflexivity.
      all: try (exists [], PNone; auto; fail).
      all: eexists _, _;
        first [ left; reflexivity
              | right; left; reflexivity
              | right; right; left; reflexivity
              | right; right; right; reflexivity ].
    + rewrite String.eqb_neq in Hi. unfold bind, ret. simpl. settle.
Qed.

(** With a serial found, set tokenrealm makes one call, which adds the
    configured realm; the option ["only_realm"] is read and not used. *)
Lemma set_tokenrealm_call (action : string) (options : Options)
    (content serial : pyval) (ho : dict) (h : list call) :
  lower action = ACTION_TYPE.SET_TOKENREALM ->
  json_loads (response_data options) = Some content ->
  resolve_serial (request_all_data options) content (audit_data options)
  = Ret serial ->
  truthy serial = true ->
  dict_get (handler_def options) "options" (PDict []) = PDict ho ->
  calls (snd (run action options h))
  = [set_realms serial [dict_get ho "realm" PNone] true].
Proof.
  intros Hact Hjson Hres Hser Hho.
  assert (Ht : str_in (lower action) target_actions = true)
    by (rewrite Hact; reflexivity).
  rewrite (do_on_found_serial _ _ _ _ _ Hjson Hres Hser Ht), Hact, Hho.
  run_handler; reflexivity.
Qed.

(** ** Further properties of [do] *)

(** X1. With a serial found, delete, disable, enable and unassign make
    exactly one call, on that serial, without reading the handler
    options (which may be missing or malformed); [do] returns [True]
    when the call returns and raises the call's exception otherwise. *)
Theorem parameterless_actions (action : string) (options : Options)
    (content serial : pyval) (h : list call) (c : call) :
  json_loads (response_data options) = Some content ->
  resolve_serial (request_all_data options) content (audit_data options)
  = Ret serial ->
  truthy serial = true ->
  (lower action = ACTION_TYPE.DELETE /\ c = remove_token serial) \/
  (lower action = ACTION_TYPE.DISABLE /\ c = enable_token serial false) \/
  (lower action = ACTION_TYPE.ENABLE /\ c = enable_token serial true) \/
  (lower action = ACTION_TYPE.UNASSIGN /\ c = unassign_token serial) ->
  run action options h
  = (obind (answer h c) (fun _ => Ret (PBool true)),
     [ELog (LogActionForToken action serial); ECall c]).
Proof.
  intros Hjson Hres Hser Hact.
  assert (Ht : str_in (lower action) target_actions = true)
    by (destruct Hact as [[E _] | [[E _] | [[E _] | [E _]]]];
        rewrite E; reflexivity).
  rewrite (do_on_found_serial _ _ _ _ _ Hjson Hres Hser Ht).
  destruct Hact as [[E ->] | [[E ->] | [[E ->] | [E ->]]]]; rewrite E;
    unfold do_on_token, exec, bind, ret, log_info, do_call; simpl;
    match goal with |- context [answer h ?k] => destruct (answer h k) end;
    reflexivity.
Qed.

(** X2. With a serial found, set description makes one call that sets
    the configured description; the description is the empty string when
    the option is absent, and also when the handler definition has no
    options at all. *)
Theorem set_description_call (action : string) (options : Options)
    (content serial : pyval) (h : list call) :
  lower action = ACTION_TYPE.SET_DESCRIPTION ->
  json_loads (response_data options) = Some content ->
  resolve_serial (request_all_data options) content (audit_data options)
  = Ret serial ->
  truthy serial = true ->
  (forall ho v,
     dict_get (handler_def options) "options" (PDict []) = PDict ho ->
     assoc "description" ho = Some v ->
     calls (snd (run action options h)) = [set_description serial v])
  /\
  (forall ho,
     dict_get (handler_def options) "options" (PDict []) = PDict ho ->
     assoc "description" ho = None ->
     calls (snd (run action options h)) = [set_description serial (PStr "")])
  /\
  (assoc "options" (handler_def options) = None ->
   calls (snd (run action options h)) = [set_description serial (PStr "")]).
Proof.
  intros Hact Hjson Hres Hser.
  assert (Ht : str_in (lower action) target_actions = true)
    by (rewrite Hact; reflexivity).
  rewrite (do_on_found_serial _ _ _ _ _ Hjson Hres Hser Ht), Hact.
  refine (conj _ (conj _ _)).
  - intros ho v -> Hv. unfold do_on_token, py_get, dict_get. simpl.
    rewrite Hv. run_handler; reflexivity.
  - intros ho -> Hv. unfold do_on_token, py_get, dict_get. simpl.
    rewrite Hv. run_handler; reflexivity.
  - intros Hno. unfold dict_get at 1. rewrite Hno.
    run_handler; reflexivity.
Qed.

(** X3. With a serial found, set tokeninfo makes one call that stores the
    configured key ([None] when absent) with the configured value, and
    with the empty string in place of a value that is absent, null or
    otherwise false ([0], [False], an empty string, list or dict). *)
Theorem set_tokeninfo_call (action : string) (options : Options)
    (content serial : pyval) (ho : dict) (h : list call) :
  lower action = ACTION_TYPE.SET_TOKENINFO ->
  json_loads (response_data options) = Some content ->
  resolve_serial (request_all_data options) content (audit_data options)
  = Ret serial ->
  truthy serial = true ->
  dict_get (handler_def options) "options" (PDict []) = PDict ho ->
  let key := dict_get ho "key" PNone in
  let value := dict_get ho "value" PNone in
  calls (snd (run action options h))
  = [add_tokeninfo serial key (if truthy value then value else PStr "")].
Proof.
  intros Hact Hjson Hres Hser Hho key value.
  assert (Ht : str_in (lower action) target_actions = true)
    by (rewrite Hact; reflexivity).
  rewrite (do_on_found_serial _ _ _ _ _ Hjson Hres Hser Ht), Hact, Hho.
  unfold do_on_token, py_get, py_or, obind. simpl. fold key value.
  destruct (truthy value); run_handler; reflexivity.
Qed.

(** X4. When the handler definition's ["options"] is not a dict (for
    instance null), every action that reads an option raises
    [AttributeError] before any collaborator is called: the five
    option-reading token actions once a serial is found, and enroll. *)
Theorem options_must_be_dict (action : string) (options : Options)
    (content serial : pyval) (h : list call) :
  json_loads (response_data options) = Some content ->
  resolve_serial (request_all_data options) content (audit_data options)
  = Ret serial ->
  (forall ho, dict_get (handler_def options) "options" (PDict []) <> PDict ho) ->
  (truthy serial = true ->
   In (lower action) [ACTION_TYPE.SET_TOKENREALM; ACTION_TYPE.SET_DESCRIPTION;
                      ACTION_TYPE.SET_COUNTWINDOW; ACTION_TYPE.SET_TOKENINFO;
                      ACTION_TYPE.SET_VALIDITY] ->
   run action options h
   = (Raise AttributeError, [ELog (LogActionForToken action serial)]))
  /\
  (lower action = ACTION_TYPE.INIT ->
   run action options h = (Raise AttributeError, [ELog LogInitializing])).
Proof.
  intros Hjson Hres Hno. split.
  - intros Hser Hin.
    assert (Ht : str_in (lower action) target_actions = true).
    { simpl in Hin. repeat (destruct Hin as [<- | Hin]);
        try reflexivity; contradiction. }
    rewrite (do_on_found_serial _ _ _ _ _ Hjson Hres Hser Ht).
    destruct (dict_get (handler_def options) "options" (PDict []))
      as [| | | | |ho] eqn:E;
      try (now destruct (Hno ho)).
    all: simpl in Hin; repeat (destruct Hin as [<- | Hin]);
      try contradiction; reflexivity.
  - intros Hact.
    rewrite (do_resolved _ _ _ _ _ Hjson Hres), Hact.
    destruct (dict_get (handler_def options) "options" (PDict []))
      as [| | | | |ho] eqn:E;
      try (now destruct (Hno ho)).
    all: reflexivity.
Qed.

Ltac replay :=
  simpl;
  first
    [ match goal with
      | H : Raise _ = Ret _ |- _ => discriminate H
      | H : Ret _ = Raise _ |- _ => discriminate H
      end
    | repeat match goal with
             | H : answer ?x ?y = _ |- context [answer ?x ?y] =>
                 rewrite H; simpl
             | H : Raise ?a = Raise ?b |- _ =>
                 assert (a = b) by (injection H; auto); clear H; subst
             end;
      refine (conj _ (conj _ _));
      [ intros ? E;
        first [discriminate E | injection E as <-; split; reflexivity]
      | reflexivity
      | intros ? E; first [discriminate E | injection E as <-; reflexivity] ] ].

(** X5. [do] never swallows a collaborator's exception and never goes on
    after one: when [do] returns, the value is [True] and every call it
    made returned; every call before the last one returned; and when a
    call raises, [do] raises that same exception. *)
Theorem do_propagates_failures (action : string) (options : Options)
    (h : list call) :
  let made := calls (snd (run action options h)) in
  (forall v, fst (run action options h) = Ret v ->
             v = PBool true /\ first_failure answer h made = None)
  /\
  first_failure answer h (removelast made) = None
  /\
  (forall e, first_failure answer h made = Some e ->
             fst (run action options h) = Raise e).
Proof.
  intros made. subst made. unfold do.
  destruct (json_loads (response_data options)) as [content|].
  2:{ replay. }
  rewrite bind_lift_ret.
  destruct (resolve_serial (request_all_data options) content
                           (audit_data options)) as [serial|e].
  2:{ replay. }
  rewrite bind_lift_ret.
  generalize (dict_get (handler_def options) "options" (PDict [])).
  intros ho.
  remember (lower action) as la eqn:Hla. clear Hla.
  destruct (str_in la target_actions) eqn:Ht.
  - apply str_in_In in Ht. simpl in Ht.
    repeat (destruct Ht as [<- | Ht]); try contradiction;
      destruct ho; run_handler; replay.
  - unfold bind at 1. unfold ret at 1. simpl.
    destruct (la =? ACTION_TYPE.INIT)%string.
    + destruct ho; run_handler; replay.
    + simpl. replay.
Qed.

(** X6. Set validity does not reach the end bound when the start bound
    fails: when ["valid from"] is given and cannot be turned into a date
    ([parse_date] raises, or returns [None]), or when setting the start
    raises, [do] raises that exception and the end of the validity
    period is not set, whatever ["valid till"] is. *)
Theorem set_validity_start_failure (action : string) (options : Options)
    (content serial : pyval) (ho : dict) (h : list call) :
  lower action = ACTION_TYPE.SET_VALIDITY ->
  json_loads (response_data options) = Some content ->
  resolve_serial (request_all_data options) content (audit_data options)
  = Ret serial ->
  truthy serial = true ->
  dict_get (handler_def options) "options" (PDict []) = PDict ho ->
  let start_date := dict_get ho VALIDITY.START PNone in
  truthy start_date = true ->
  (forall e,
     obind (parse_date start_date) (py_strftime strftime) = Raise e ->
     run action options h
     = (Raise e, [ELog (LogActionForToken action serial)]))
  /\
  (forall s e,
     obind (parse_date start_date) (py_strftime strftime) = Ret s ->
     answer h (set_validity_period_start serial PNone s) = Raise e ->
     run action options h
     = (Raise e, [ELog (LogActionForToken action serial);
                  ECall (set_validity_period_start serial PNone s)])).
Proof.
  intros Hact Hjson Hres Hser Hho start_date Hstart.
  assert (Ht : str_in (lower action) target_actions = true)
    by (rewrite Hact; reflexivity).
  rewrite (do_on_found_serial _ _ _ _ _ Hjson Hres Hser Ht), Hact, Hho.
  unfold do_on_token, exec, bind, ret, lift, log_info, do_call, py_get,
    py_strftime, obind.
  simpl. fold start_date. rewrite Hstart.
  split.
  - intros e He.
    destruct (parse_date start_date) as [[d|]|e']; simpl in *;
      try discriminate; injection He as <-; reflexivity.
  - intros s e Hs He.
    destruct (parse_date start_date) as [[d|]|e']; simpl in *;
      try discriminate.
    injection Hs as <-. rewrite He. reflexivity.
Qed.

(** X7. Set validity does not undo the start bound when the end bound
    fails: with both bounds given, once the start has been set, a
    ["valid till"] that cannot be turned into a date makes [do] raise
    after the start call, which stays in effect. *)
Theorem set_validity_end_failure (action : string) (options : Options)
    (content serial : pyval) (ho : dict) (h : list call) :
  lower action = ACTION_TYPE.SET_VALIDITY ->
  json_loads (response_data options) = Some content ->
  resolve_serial (request_all_data options) content (audit_data options)
  = Ret serial ->
  truthy serial = true ->
  dict_get (handler_def options) "options" (PDict []) = PDict ho ->
  let start_date := dict_get ho VALIDITY.START PNone in
  let end_date := dict_get ho VALIDITY.END PNone in
  forall s r e,
    truthy start_date = true ->
    obind (parse_date start_date) (py_strftime strftime) = Ret s ->
    answer h (set_validity_period_start serial PNone s) = Ret r ->
    truthy end_date = true ->
    obind (parse_date end_date) (py_strftime strftime) = Raise e ->
    run action options h
    = (Raise e, [ELog (LogActionForToken action serial);
                 ECall (set_validity_period_start serial PNone s)]).
Proof.
  intros Hact Hjson Hres Hser Hho start_date end_date s r e
    Hstart Hs Hr Hend He.
  assert (Ht : str_in (lower action) target_actions = true)
    by (rewrite Hact; reflexivity).
  rewrite (do_on_found_serial _ _ _ _ _ Hjson Hres Hser Ht), Hact, Hho.
  unfold do_on_token, exec, bind, ret, lift, log_info, do_call, py_get,
    py_strftime, obind in *.
  simpl. fold start_date end_date. rewrite Hstart.
  destruct (parse_date start_date) as [[d|]|e1]; simpl in *;
    try discriminate.
  injection Hs as <-. rewrite Hr. simpl. rewrite Hend.
  destruct (parse_date end_date) as [[d'|]|e2]; simpl in *;
    try discriminate; injection He as <-; reflexivity.
Qed.

(** X8. Evaluating the serial expression: a request serial that counts
    as true is taken without looking at the response body, which may
    then be any JSON value; without one, a body that is not an object,
    or whose detail is not an object, raises [AttributeError] even when
    the audit data holds a serial. *)
Theorem resolve_serial_body_shape (all_data audit : dict) (content : pyval) :
  let req := dict_get all_data "serial" PNone in
  (truthy req = true -> resolve_serial all_data content audit = Ret req)
  /\
  (truthy req = false -> ~ has_detail_section content ->
   resolve_serial all_data content audit = Raise AttributeError)
  /\
  (truthy req = false -> has_detail_section content ->
   exists v, resolve_serial all_data content audit = Ret v).
Proof.
  intros req. unfold resolve_serial, py_or, obind. fold req.
  refine (conj _ (conj _ _)).
  - intros Hreq. rewrite Hreq. cbv beta iota. now rewrite Hreq.
  - intros Hreq Hbad. rewrite Hreq. cbv beta iota.
    destruct content as [| | | | |cd]; try reflexivity.
    simpl. destruct (dict_get cd "detail" (PDict [])) as [| | | | |dd] eqn:E;
      try reflexivity.
    exfalso. apply Hbad. exists cd, dd. split; [reflexivity | assumption].
  - intros Hreq (cd & dd & -> & Hdd). rewrite Hreq. cbv beta iota.
    simpl. rewrite Hdd. simpl.
    destruct (truthy (dict_get dd "serial" PNone)); eexists; reflexivity.
Qed.

(** X9. The serial that is resolved is never made up: it is the request's
    serial, the response detail's serial or the audit data's serial, and
    it counts as false only when the first two do and it is the audit
    data's. *)
Theorem resolve_serial_is_a_candidate (all_data audit : dict)
    (content serial : pyval) :
  resolve_serial all_data content audit = Ret serial ->
  let req := dict_get all_data "serial" PNone in
  let aud := dict_get audit "serial" PNone in
  (serial = req /\ truthy req = true)
  \/
  (exists cd dd,
     content = PDict cd /\ dict_get cd "detail" (PDict []) = PDict dd /\
     truthy req = false /\
     let det := dict_get dd "serial" PNone in
     (serial = det /\ truthy det = true) \/
     (serial = aud /\ truthy det = false)).
Proof.
  intros Hres req aud. unfold resolve_serial, py_or, obind in Hres.
  fold req aud in Hres.
  destruct (truthy req) eqn:Hreq.
  - cbv beta iota in Hres. rewrite Hreq in Hres.
    injection Hres as <-. left. split; reflexivity.
  - right. cbv beta iota in Hres.
    destruct content as [| | | | |cd]; try discriminate.
    simpl in Hres.
    destruct (dict_get cd "detail" (PDict [])) as [| | | | |dd] eqn:E;
      try discriminate.
    simpl in Hres. exists cd, dd.
    refine (conj eq_refl (conj E (conj eq_refl _))).
    cbv zeta.
    destruct (truthy (dict_get dd "serial" PNone)) eqn:Hdet.
    + injection Hres as <-. left. split; reflexivity.
    + injection Hres as <-. right. split; reflexivity.
Qed.

(** X10. Every action depends on the shape of the response body when the
    request names no serial: if the decoded body is not an object with
    an object (or no) detail, [do] raises [AttributeError] before any
    log record or collaborator call, also for enroll and for action
    names it does not know. *)
Theorem do_requires_object_body (action : string) (options : Options)
    (content : pyval) (h : list call) :
  json_loads (response_data options) = Some content ->
  truthy (dict_get (request_all_data options) "serial" PNone) = false ->
  ~ has_detail_section content ->
  run action options h = (Raise AttributeError, []).
Proof.
  intros Hjson Hreq Hbad. unfold do.
  rewrite Hjson, bind_lift_ret.
  assert (E : resolve_serial (request_all_data options) content
                             (audit_data options) = Raise AttributeError).
  { unfold resolve_serial, py_or, obind. rewrite Hreq. cbv beta iota.
    destruct content as [| | | | |cd]; try reflexivity.
    simpl. destruct (dict_get cd "detail" (PDict [])) as [| | | | |dd] eqn:E;
      try reflexivity.
    exfalso. apply Hbad. exists cd, dd. split; [reflexivity | assumption]. }
  rewrite E. reflexivity.
Qed.

(** X11. Enroll depends on the event only through the handler definition
    and the request: two events with the same request data and handler
    definition, whose bodies decode and whose serial expressions
    evaluate, enroll in the same way whatever their response bodies and
    audit data hold; and when the option ["user"] does not ask for an
    owner, the request data has no influence either, so that events
    naming different tokens enroll in the same way. *)
Theorem enroll_ignores_body_and_audit (action : string)
    (options options' : Options)
    (content content' serial serial' : pyval) (h : list call) :
  lower action = ACTION_TYPE.INIT ->
  json_loads (response_data options) = Some content ->
  json_loads (response_data options') = Some content' ->
  resolve_serial (request_all_data options) content (audit_data options)
  = Ret serial ->
  resolve_serial (request_all_data options') content' (audit_data options')
  = Ret serial' ->
  handler_def options' = handler_def options ->
  (request_all_data options' = request_all_data options ->
   run action options' h = run action options h)
  /\
  (forall ho,
     dict_get (handler_def options) "options" (PDict []) = PDict ho ->
     user_flag (dict_get ho "user" PNone) = false ->
     run action options' h = run action options h).
Proof.
  intros Hact Hjson Hjson' Hres Hres' Hdef.
  rewrite (do_resolved _ _ _ _ _ Hjson Hres),
    (do_resolved _ _ _ _ _ Hjson' Hres'), Hact, Hdef.
  change (str_in ACTION_TYPE.INIT target_actions) with false.
  change (ACTION_TYPE.INIT =? ACTION_TYPE.INIT)%string with true.
  cbv beta iota. split.
  - intros Hreq. rewrite Hreq. reflexivity.
  - intros ho Hho Hu. rewrite Hho.
    unfold do_enroll, bind, ret, lift, log_info, do_call, py_get. simpl.
    rewrite Hu. reflexivity.
Qed.

(** X12. How enroll ends: when the owner lookup raises, [do] raises the
    same exception and no token is created; when the creation raises,
    [do] raises the same exception; when both return, [do] logs the new
    token's serial and returns [True]. *)
Theorem enroll_outcome (action : string) (options : Options)
    (content serial : pyval) (ho : dict) (h : list call) :
  lower action = ACTION_TYPE.INIT ->
  json_loads (response_data options) = Some content ->
  resolve_serial (request_all_data options) content (audit_data options)
  = Ret serial ->
  dict_get (handler_def options) "options" (PDict []) = PDict ho ->
  let param := [("type", dict_get ho "tokentype" PNone);
                ("genkey", PInt 1);
                ("realm", dict_get ho "realm" (PStr ""))] in
  let lookup := get_tokenowner (request_all_data options) in
  (user_flag (dict_get ho "user" PNone) = true ->
   forall e, answer h lookup = Raise e ->
     run action options h = (Raise e, [ELog LogInitializing; ECall lookup]))
  /\
  (user_flag (dict_get ho "user" PNone) = true ->
   forall owner, answer h lookup = Ret owner ->
     run action options h
     = match answer (lookup :: h) (init_token param owner) with
       | Ret t => (Ret (PBool true),
                   [ELog LogInitializing; ECall lookup;
                    ECall (init_token param owner); ELog (LogEnrolled t)])
       | Raise e => (Raise e,
                     [ELog LogInitializing; ECall lookup;
                      ECall (init_token param owner)])
       end)
  /\
  (user_flag (dict_get ho "user" PNone) = false ->
   run action options h
   = match answer h (init_token param PNone) with
     | Ret t => (Ret (PBool true),
                 [ELog LogInitializing;
                  ECall (init_token param PNone); ELog (LogEnrolled t)])
     | Raise e => (Raise e,
                   [ELog LogInitializing; ECall (init_token param PNone)])
     end).
Proof.
  intros Hact Hjson Hres Hho param lookup.
  rewrite (do_resolved _ _ _ _ _ Hjson Hres), Hact, Hho.
  change (str_in ACTION_TYPE.INIT target_actions) with false.
  change (ACTION_TYPE.INIT =? ACTION_TYPE.INIT)%string with true.
  cbv beta iota.
  unfold do_enroll, bind, ret, lift, log_info, do_call, py_get. simpl.
  fold lookup param.
  refine (conj _ (conj _ _)).
  - intros Hu e He. rewrite Hu, He. reflexivity.
  - intros Hu owner Hown. rewrite Hu, Hown. simpl. fold param.
    destruct (answer (lookup :: h) (init_token param owner)); reflexivity.
  - intros Hu. rewrite Hu. simpl. fold param.
    destruct (answer h (init_token param PNone)); reflexivity.
Qed.

(** X13. A token action only ever touches the resolved token: every call
    [do] makes for one of the nine token actions is about the serial the
    serial expression gave. *)
Theorem token_actions_target_the_serial (action : string) (options : Options)
    (content serial : pyval) (h : list call) :
  str_in (lower action) target_actions = true ->
  json_loads (response_data options) = Some content ->
  resolve_serial (request_all_data options) content (audit_data options)
  = Ret serial ->
  forall c, In c (calls (snd (run action options h))) ->
            serial_of_call c = Some serial.
Proof.
  intros Ht Hjson Hres.
  rewrite (do_resolved _ _ _ _ _ Hjson Hres), Ht,
    (target_is_not_enroll _ Ht).
  generalize (dict_get (handler_def options) "options" (PDict [])).
  intros ho.
  remember (lower action) as la eqn:Hla. clear Hla.
  apply str_in_In in Ht. simpl in Ht.
  repeat (destruct Ht as [<- | Ht]); try contradiction;
    destruct ho; run_handler; intros c Hc; simpl in Hc;
    repeat (destruct Hc as [<- | Hc]); try contradiction; reflexivity.
Qed.

(** X18. Set validity with nothing to set is a silent no-op: when both
    ["valid from"] and ["valid till"] are absent or empty, [do] calls no
    collaborator and returns [True]. *)
Theorem set_validity_without_bounds (action : string) (options : Options)
    (content serial : pyval) (ho : dict) (h : list call) :
  lower action = ACTION_TYPE.SET_VALIDITY ->
  json_loads (response_data options) = Some content ->
  resolve_serial (request_all_data options) content (audit_data options)
  = Ret serial ->
  truthy serial = true ->
  dict_get (handler_def options) "options" (PDict []) = PDict ho ->
  truthy (dict_get ho VALIDITY.START PNone) = false ->
  truthy (dict_get ho VALIDITY.END PNone) = false ->
  run action options h
  = (Ret (PBool true), [ELog (LogActionForToken action serial)]).
Proof.
  intros Hact Hjson Hres Hser Hho Hstart Hend.
  assert (Ht : str_in (lower action) target_actions = true)
    by (rewrite Hact; reflexivity).
  rewrite (do_on_found_serial _ _ _ _ _ Hjson Hres Hser Ht), Hact, Hho.
  unfold do_on_token, exec, bind, ret, lift, log_info, do_call, py_get.
  simpl. rewrite Hstart, Hend. reflexivity.
Qed.

Variable gettext : string -> string.

(** The keys of the dict [actions] returns are the ten identifiers of
    [ACTION_TYPE]. *)
Lemma actions_keys (h : list call) (schema : dict) :
  fst (actions answer gettext h) = Ret (PDict schema) ->
  map fst schema = registered_actions.
Proof.
  unfold actions, bind, do_call, lift, ret. simpl.
  destruct (answer h get_realms) as [realms|]; simpl; [|discriminate].
  destruct (py_keys realms); simpl; [|discriminate].
  destruct (answer (get_realms :: h) get_token_types); simpl; [|discriminate].
  intros E. injection E as <-. reflexivity.
Qed.

(** C9. Each evaluation of [actions] asks the realm collaborator and
    the token type collaborator, and the allowed values it returns for
    ["realm"] (of set tokenrealm and of enroll) and for ["tokentype"]
    are the realm names and the token types answered at that moment,
    whatever calls came before; it makes no other call, so it changes
    nothing. *)
Theorem actions_current (h : list call) (realms : dict) (tokentypes : pyval) :
  answer h get_realms = Ret (PDict realms) ->
  answer (get_realms :: h) get_token_types = Ret tokentypes ->
  exists schema,
    actions answer gettext h
    = (Ret (PDict schema), [ECall get_realms; ECall get_token_types])
    /\ allowed_values schema ACTION_TYPE.SET_TOKENREALM "realm"
       = Some (PList (keys realms))
    /\ allowed_values schema ACTION_TYPE.INIT "realm"
       = Some (PList (keys realms))
    /\ allowed_values schema ACTION_TYPE.INIT "tokentype" = Some tokentypes
    /\ mutations (snd (actions answer gettext h)) = [].
Proof.
  intros Hrealms Htypes.
  unfold actions, bind, do_call, lift, ret. simpl.
  rewrite Hrealms. simpl. rewrite Htypes. simpl.
  eexists. split; [reflexivity|]. repeat split.
Qed.

(** ** Further properties of [actions], and of [actions] with [do] *)

(** The dict [actions] returns, with the two enumerations left open. *)
Lemma actions_schema (h : list call) (schema : dict) :
  fst (actions answer gettext h) = Ret (PDict schema) ->
  exists realm_list tokentypes,
    forall a,
      option_names schema a
      = (if (a =? ACTION_TYPE.SET_TOKENREALM)%string then ["realm"; "only_realm"]
         else if (a =? ACTION_TYPE.INIT)%string then ["tokentype"; "user"; "realm"]
         else if (a =? ACTION_TYPE.SET_DESCRIPTION)%string then ["description"]
         else if (a =? ACTION_TYPE.SET_VALIDITY)%string
              then [VALIDITY.START; VALIDITY.END]
         else if (a =? ACTION_TYPE.SET_COUNTWINDOW)%string then ["count window"]
         else if (a =? ACTION_TYPE.SET_TOKENINFO)%string then ["key"; "value"]
         else [])
      /\
      forall o v,
        allowed_values schema a o = Some v ->
        (a = ACTION_TYPE.SET_TOKENREALM /\ o = "realm" /\ v = realm_list) \/
        (a = ACTION_TYPE.INIT /\ o = "realm" /\ v = realm_list) \/
        (a = ACTION_TYPE.INIT /\ o = "tokentype" /\ v = tokentypes).
Proof.
  unfold actions, bind, do_call, lift, ret. simpl.
  destruct (answer h get_realms) as [realms|]; simpl; [|discriminate].
  destruct (py_keys realms) as [realm_list|]; simpl; [|discriminate].
  destruct (answer (get_realms :: h) get_token_types) as [tokentypes|];
    simpl; [|discriminate].
  intros E. injection E as <-. exists realm_list, tokentypes. intros a.
  unfold option_names, allowed_values. simpl.
  repeat match goal with
         | |- context [(a =? ?k)%string] =>
             destruct (String.eqb_spec a k) as [->|?]; simpl
         end.
  all: split; [reflexivity|].
  all: intros o v; simpl;
    repeat match goal with
           | |- context [(o =? ?k)%string] =>
               destruct (String.eqb_spec o k) as [->|?]; simpl
           end;
    intros E; try discriminate E; injection E as <-; auto 10.
Qed.

(** X14. [do] reads only options that [actions] declares for the action:
    for an action name of ASCII characters, two events that differ only
    in their handler options, and agree on every option the schema lists
    for the lower-cased action, are handled identically. *)
Theorem do_reads_declared_options (action : string) (options options' : Options)
    (ho ho' schema : dict) (h0 h : list call) :
  is_ascii action = true ->
  fst (actions answer gettext h0) = Ret (PDict schema) ->
  request_all_data options' = request_all_data options ->
  response_data options' = response_data options ->
  audit_data options' = audit_data options ->
  dict_get (handler_def options) "options" (PDict []) = PDict ho ->
  dict_get (handler_def options') "options" (PDict []) = PDict ho' ->
  (forall k, In k (option_names schema (lower action)) ->
             assoc k ho' = assoc k ho) ->
  run action options' h = run action options h.
Proof.
  intros _ Hschema Hreq Hresp Haud Hho Hho' Hsame.
  destruct (actions_schema _ _ Hschema) as (realm_list & tokentypes & Hnames).
  unfold do. rewrite Hreq, Hresp, Haud, Hho, Hho'.
  destruct (json_loads (response_data options)) as [content|];
    [|reflexivity].
  rewrite !bind_lift_ret.
  destruct (resolve_serial (request_all_data options) content
                           (audit_data options)) as [serial|e];
    [|reflexivity].
  rewrite !bind_lift_ret.
  remember (lower action) as la eqn:Hla. clear Hla.
  destruct (Hnames la) as [Hn _]. rewrite Hn in Hsame. clear Hn Hnames.
  assert (Hget : forall k d,
             In k (if (la =? ACTION_TYPE.SET_TOKENREALM)%string
                   then ["realm"; "only_realm"]
                   else if (la =? ACTION_TYPE.INIT)%string
                   then ["tokentype"; "user"; "realm"]
                   else if (la =? ACTION_TYPE.SET_DESCRIPTION)%string
                   then ["description"]
                   else if (la =? ACTION_TYPE.SET_VALIDITY)%string
                   then [VALIDITY.START; VALIDITY.END]
                   else if (la =? ACTION_TYPE.SET_COUNTWINDOW)%string
                   then ["count window"]
                   else if (la =? ACTION_TYPE.SET_TOKENINFO)%string
                   then ["key"; "value"]
                   else []) ->
             dict_get ho' k d = dict_get ho k d).
  { intros k d Hk. unfold dict_get. now rewrite (Hsame k Hk). }
  clear Hsame.
  destruct (str_in la target_actions) eqn:Ht.
  - rewrite (target_is_not_enroll _ Ht).
    destruct (truthy serial); [|reflexivity].
    apply str_in_In in Ht. simpl in Ht.
    repeat (destruct Ht as [<- | Ht]); try contradiction;
      simpl in Hget; unfold do_on_token, py_get; simpl;
      rewrite ?Hget by (simpl; auto 10); reflexivity.
  - destruct (String.eqb_spec la ACTION_TYPE.INIT) as [->|Hne];
      [|reflexivity].
    simpl in Hget. unfold do_enroll, py_get; simpl.
    rewrite ?Hget by (simpl; auto 10). reflexivity.
Qed.

(** X15. How [actions] fails: when the realm enumeration raises,
    [actions] raises the same exception and the token types are not
    asked for; when the realm collaborator answers with something that
    is not a dict, [actions] raises [AttributeError]; when the token type
    enumeration raises, [actions] raises that exception. *)
Theorem actions_failure (h : list call) :
  (forall e, answer h get_realms = Raise e ->
             actions answer gettext h = (Raise e, [ECall get_realms]))
  /\
  (forall v, answer h get_realms = Ret v -> (forall d, v <> PDict d) ->
             actions answer gettext h
             = (Raise AttributeError, [ECall get_realms]))
  /\
  (forall d e, answer h get_realms = Ret (PDict d) ->
               answer (get_realms :: h) get_token_types = Raise e ->
               actions answer gettext h
               = (Raise e, [ECall get_realms; ECall get_token_types])).
Proof.
  unfold actions, bind, do_call, lift, ret. simpl.
  refine (conj _ (conj _ _)).
  - intros e ->. reflexivity.
  - intros v -> Hv. simpl.
    destruct v as [| | | | |d]; try reflexivity. now destruct (Hv d).
  - intros d e -> He. simpl. rewrite He. reflexivity.
Qed.

(** X16. Only three options carry a list of allowed values in the dict
    [actions] returns: ["realm"] of set tokenrealm and of enroll, both
    with the keys of the realm enumeration, and ["tokentype"] of enroll,
    with the token type enumeration; every other option is free-form. *)
Theorem actions_enumerated_options (h : list call) (schema : dict)
    (a o : string) (v : pyval) :
  fst (actions answer gettext h) = Ret (PDict schema) ->
  allowed_values schema a o = Some v ->
  exists realms tokentypes,
    answer h get_realms = Ret (PDict realms) /\
    answer (get_realms :: h) get_token_types = Ret tokentypes /\
    ((a = ACTION_TYPE.SET_TOKENREALM /\ o = "realm"
      /\ v = PList (keys realms)) \/
     (a = ACTION_TYPE.INIT /\ o = "realm" /\ v = PList (keys realms)) \/
     (a = ACTION_TYPE.INIT /\ o = "tokentype" /\ v = tokentypes)).
Proof.
  intros Hschema Hv.
  destruct (actions_schema _ _ Hschema) as (realm_list & tt & Hnames).
  destruct (Hnames a) as [_ Hval]. specialize (Hval o v Hv).
  revert Hschema. unfold actions, bind, do_call, lift, ret. simpl.
  destruct (answer h get_realms) as [realms|]; simpl; [|discriminate].
  destruct realms as [| | | | |rd]; simpl; try discriminate.
  destruct (answer (get_realms :: h) get_token_types) as [tokentypes|];
    simpl; [|discriminate].
  intros E. injection E as <-.
  exists rd, tokentypes. refine (conj eq_refl (conj eq_refl _)).
  revert Hv. unfold allowed_values.
  destruct Hval as [(-> & -> & _) | [(-> & -> & _) | (-> & -> & _)]];
    simpl; intros E; injection E as <-; auto 10.
Qed.

(** X17. The registry and the dispatch agree: the action names [actions]
    lists are lower-case, and a lower-case name is listed exactly when
    [do] handles it, as one of the nine token actions or as enroll. *)
Theorem registry_matches_dispatch (h : list call) (schema : dict) :
  fst (actions answer gettext h) = Ret (PDict schema) ->
  (forall a, In a (map fst schema) -> lower a = a)
  /\
  (forall la, In la (map fst schema) <->
              str_in la target_actions = true \/ la = ACTION_TYPE.INIT).
Proof.
  intros Hschema. rewrite (actions_keys _ _ Hschema). split.
  - intros a Ha. simpl in Ha.
    repeat (destruct Ha as [<- | Ha]); try contradiction; reflexivity.
  - intros la. rewrite str_in_In. simpl. split.
    + intros H. repeat (destruct H as [<- | H]); try contradiction; auto 12.
    + intros [H | ->]; [|auto 12].
      repeat (destruct H as [<- | H]); try contradiction; auto 12.
Qed.

End Properties.

(** ** The properties on the sample environment *)

Lemma resolve_serial_precedence_witness :
  resolve_serial [("serial", PStr "A")]
                 (PDict [("detail", PDict [("serial", PStr "B")])])
                 [("serial", PStr "C")]
  = Ret (PStr "A")
  /\
  resolve_serial []
                 (PDict [("detail", PDict [("serial", PStr "B")])])
                 [("serial", PStr "C")]
  = Ret (PStr "B").
Proof.
  split.
  - apply (resolve_serial_precedence
             [("serial", PStr "A")]
             [("detail", PDict [("serial", PStr "B")])]
             [("serial", PStr "B")]
             [("serial", PStr "C")]).
    + reflexivity.
    + right. exists "A". reflexivity.
    + right. exists "B". reflexivity.
  - apply (resolve_serial_precedence
             []
             [("detail", PDict [("serial", PStr "B")])]
             [("serial", PStr "B")]
             [("serial", PStr "C")]).
    + reflexivity.
    + left. reflexivity.
    + right. exists "B". reflexivity.
Defined.

Lemma do_without_serial_witness :
  Sample.do "Disable" (Sample.without_serial []) []
  = (Ret (PBool true), [ELog LogRequiresSerial]).
Proof.
  apply (do_without_serial Sample.json_loads Sample.answer Sample.datetime
           Sample.parse_date Sample.strftime
           "Disable" (Sample.without_serial []) [] [] []);
    reflexivity.
Defined.

Lemma do_requires_json_body_witness :
  Sample.do "delete" Sample.html_response [] = (Raise ValueError, []).
Proof.
  apply (do_requires_json_body Sample.json_loads Sample.answer Sample.datetime
           Sample.parse_date Sample.strftime
           "delete" Sample.html_response []).
  reflexivity.
Defined.

Lemma enroll_owner_witness :
  let created owner :=
    init_token [("type", PStr "hotp"); ("genkey", PInt 1); ("realm", PStr "")]
               owner in
  let enroll user :=
    calls (snd (Sample.do "enroll"
                  (Sample.without_serial
                     (("tokentype", PStr "hotp") :: user)) [])) in
  enroll [("user", PStr "1")]
  = [get_tokenowner []; created (PStr "cornelius")]
  /\ enroll [("user", PInt 1)]
     = [get_tokenowner []; created (PStr "cornelius")]
  /\ enroll [("user", PBool true)]
     = [get_tokenowner []; created (PStr "cornelius")]
  /\ enroll [("user", PStr "true")] = [created PNone]
  /\ enroll [] = [created PNone].
Proof.
  pose proof (fun user =>
    enroll_owner Sample.json_loads Sample.answer Sample.datetime
      Sample.parse_date Sample.strftime "enroll"
      (Sample.without_serial (("tokentype", PStr "hotp") :: user))
      (PDict []) PNone (("tokentype", PStr "hotp") :: user) []
      eq_refl eq_refl eq_refl eq_refl) as E.
  intros created enroll. refine (conj _ (conj _ (conj _ (conj _ _)))).
  - apply (proj1 (E [("user", PStr "1")])); auto.
  - apply (proj1 (E [("user", PInt 1)])); auto.
  - apply (proj1 (E [("user", PBool true)])); auto.
  - apply (proj2 (E [("user", PStr "true")])). simpl.
    intros [H | [H | H]]; discriminate H.
  - apply (proj2 (E [])). simpl.
    intros [H | [H | H]]; discriminate H.
Defined.

Lemma do_unrecognized_action_witness :
  Sample.do "reboot" (Sample.on_token_A []) [] = (Ret (PBool true), [])
  /\
  calls (snd (Sample.do "DELETE" (Sample.on_token_A []) []))
  = calls (snd (Sample.do "delete" (Sample.on_token_A []) []))
  /\
  calls (snd (Sample.do "Set TokenRealm"
                (Sample.on_token_A [("realm", PStr "realm2")]) []))
  = [set_realms (PStr "A") [PStr "realm2"] true].
Proof.
  refine (conj _ (conj _ _)).
  - apply (proj2 (proj1 (do_unrecognized_action Sample.json_loads
                           Sample.answer Sample.datetime Sample.parse_date
                           Sample.strftime "reboot" (Sample.on_token_A []) [])
                        eq_refl eq_refl)
             (PDict []) (PStr "A"));
      reflexivity.
  - apply (proj1 (proj2 (do_unrecognized_action Sample.json_loads
                           Sample.answer Sample.datetime Sample.parse_date
                           Sample.strftime "delete" (Sample.on_token_A []) []))
             "DELETE").
    reflexivity.
  - apply (eq_trans
             (proj2 (proj2 (proj2 (do_unrecognized_action Sample.json_loads
                 Sample.answer Sample.datetime Sample.parse_date
                 Sample.strftime "Set TokenRealm"
                 (Sample.on_token_A [("realm", PStr "realm2")]) []))
               ACTION_TYPE.SET_TOKENREALM (or_introl eq_refl) eq_refl))).
    reflexivity.
Defined.



Lemma set_validity_independent_witness :
  calls (snd (Sample.do "set validity"
                (Sample.on_token_A [("valid from", PStr "+1d")]) []))
  = [set_validity_period_start (PStr "A") PNone "2016-11-15T10:00+0000"]
  /\
  calls (snd (Sample.do "set validity"
                (Sample.on_token_A [("valid till", PStr "2016-12-23")]) []))
  = [set_validity_period_end (PStr "A") PNone "2016-12-23T00:00+0000"].
Proof.
  pose proof (fun opts =>
    set_validity_independent Sample.json_loads Sample.answer Sample.datetime
      Sample.parse_date Sample.strftime "set validity"
      (Sample.on_token_A opts) (PDict []) (PStr "A") opts []
      eq_refl eq_refl eq_refl eq_refl eq_refl) as E.
  split.
  - apply (proj1 (E [("valid from", PStr "+1d")])); reflexivity.
  - apply (proj1 (proj2 (E [("valid till", PStr "2016-12-23")])));
      reflexivity.
Defined.

(** C8 as stated fails: set validity with both bounds performs two
    mutating calls in one invocation. *)
Lemma set_validity_two_mutations :
  mutations (snd (Sample.do "set validity"
                    (Sample.on_token_A [("valid from", PStr "+1d");
                                        ("valid till", PStr "2016-12-23")])
                    []))
  = [set_validity_period_start (PStr "A") PNone "2016-11-15T10:00+0000";
     set_validity_period_end (PStr "A") PNone "2016-12-23T00:00+0000"]
  /\
  ~ (length (mutations (snd (Sample.do "set validity"
                    (Sample.on_token_A [("valid from", PStr "+1d");
                                        ("valid till", PStr "2016-12-23")])
                    []))) <= 1)%nat.
Proof.
  split; [reflexivity | simpl; lia].
Qed.

Lemma do_mutation_bound_witness :
  (length (mutations (snd (Sample.do "delete" (Sample.on_token_A []) [])))
   <= 1)%nat.
Proof.
  apply (proj1 (do_mutation_bound Sample.json_loads Sample.answer
                  Sample.datetime Sample.parse_date Sample.strftime
                  "delete" (Sample.on_token_A []) [])).
  simpl. discriminate.
Defined.

Lemma actions_current_witness :
  exists first second,
    fst (Sample.actions []) = Ret (PDict first)
    /\ allowed_values first ACTION_TYPE.SET_TOKENREALM "realm"
       = Some (PList [PStr "realm1"])
    /\ fst (Sample.actions [get_token_types; get_realms]) = Ret (PDict second)
    /\ allowed_values second ACTION_TYPE.SET_TOKENREALM "realm"
       = Some (PList [PStr "realm1"; PStr "realm2"])
    /\ allowed_values second ACTION_TYPE.INIT "tokentype"
       = Some (PList [PStr "hotp"; PStr "totp"; PStr "spass"]).
Proof.
  destruct (actions_current Sample.answer Sample.gettext []
              [("realm1", PDict [])] (PList [PStr "hotp"; PStr "totp"])
              eq_refl eq_refl)
    as (first & E1 & R1 & _).
  destruct (actions_current Sample.answer Sample.gettext
              [get_token_types; get_realms]
              [("realm1", PDict []); ("realm2", PDict [])]
              (PList [PStr "hotp"; PStr "totp"; PStr "spass"])
              eq_refl eq_refl)
    as (second & E2 & R2 & _ & T2 & _).
  exists first, second. unfold Sample.actions.
  rewrite E1, E2. refine (conj _ (conj _ (conj _ (conj _ _)))).
  - reflexivity.
  - exact R1.
  - reflexivity.
  - exact R2.
  - exact T2.
Defined.

(** C3. At the failing input: set tokenrealm with [only_realm] true
    still calls [set_realms] with [add=True], so the realm is added to
    the token's realms and does not replace them; the flag reaches no
    collaborator call. *)
Theorem set_tokenrealm_ignores_only_realm :
  Sample.do "set tokenrealm"
    (Sample.on_token_A [("realm", PStr "realm2"); ("only_realm", PBool true)])
    []
  = (Ret (PBool true),
     [ELog (LogActionForToken "set tokenrealm" (PStr "A"));
      ELog (LogSettingRealm (PStr "A") (PStr "realm2"));
      ECall (set_realms (PStr "A") [PStr "realm2"] true)])
  /\
  Sample.do "set tokenrealm"
    (Sample.on_token_A [("realm", PStr "realm2"); ("only_realm", PBool true)])
    []
  = Sample.do "set tokenrealm"
      (Sample.on_token_A [("realm", PStr "realm2"); ("only_realm", PBool false)])
      [].
Proof.
  split; reflexivity.
Qed.

(** ** The further properties on the sample environment *)

Lemma parameterless_actions_witness :
  Sample.do "Unassign" (Sample.on_token_A []) []
  = (Ret (PBool true),
     [ELog (LogActionForToken "Unassign" (PStr "A"));
      ECall (unassign_token (PStr "A"))])
  /\
  do Sample.json_loads Sample.refusing Sample.parse_date Sample.strftime
     "delete" Sample.null_options []
  = (Raise (CollaboratorError "token not found"),
     [ELog (LogActionForToken "delete" (PStr "A"));
      ECall (remove_token (PStr "A"))]).
Proof.
  split.
  - apply (parameterless_actions Sample.json_loads Sample.answer
             Sample.datetime Sample.parse_date Sample.strftime
             "Unassign" (Sample.on_token_A []) (PDict []) (PStr "A") []
             (unassign_token (PStr "A")) eq_refl eq_refl eq_refl).
    right. right. right. split; reflexivity.
  - apply (parameterless_actions Sample.json_loads Sample.refusing
             Sample.datetime Sample.parse_date Sample.strftime
             "delete" Sample.null_options (PDict []) (PStr "A") []
             (remove_token (PStr "A")) eq_refl eq_refl eq_refl).
    left. split; reflexivity.
Defined.

Lemma set_description_call_witness :
  calls (snd (Sample.do "set description"
                (mkOptions [("serial", PStr "A")] "{}" [] []) []))
  = [set_description (PStr "A") (PStr "")]
  /\
  calls (snd (Sample.do "set description"
                (Sample.on_token_A [("description", PStr "spare")]) []))
  = [set_description (PStr "A") (PStr "spare")].
Proof.
  split.
  - apply (proj2 (proj2 (set_description_call Sample.json_loads Sample.answer
             Sample.datetime Sample.parse_date Sample.strftime
             "set description" (mkOptions [("serial", PStr "A")] "{}" [] [])
             (PDict []) (PStr "A") [] eq_refl eq_refl eq_refl eq_refl))).
    reflexivity.
  - apply (proj1 (set_description_call Sample.json_loads Sample.answer
             Sample.datetime Sample.parse_date Sample.strftime
             "set description"
             (Sample.on_token_A [("description", PStr "spare")])
             (PDict []) (PStr "A") [] eq_refl eq_refl eq_refl eq_refl)
             [("description", PStr "spare")] (PStr "spare"));
      reflexivity.
Defined.

Lemma set_tokeninfo_call_witness :
  calls (snd (Sample.do "set tokeninfo"
                (Sample.on_token_A [("key", PStr "rollout"); ("value", PInt 0)])
                []))
  = [add_tokeninfo (PStr "A") (PStr "rollout") (PStr "")].
Proof.
  apply (set_tokeninfo_call Sample.json_loads Sample.answer
           Sample.datetime Sample.parse_date Sample.strftime
           "set tokeninfo"
           (Sample.on_token_A [("key", PStr "rollout"); ("value", PInt 0)])
           (PDict []) (PStr "A")
           [("key", PStr "rollout"); ("value", PInt 0)] []);
    reflexivity.
Defined.

Lemma options_must_be_dict_witness :
  Sample.do "set description" Sample.null_options []
  = (Raise AttributeError,
     [ELog (LogActionForToken "set description" (PStr "A"))])
  /\
  Sample.do "enroll" Sample.null_options []
  = (Raise AttributeError, [ELog LogInitializing]).
Proof.
  assert (H : forall ho,
             dict_get (handler_def Sample.null_options) "options" (PDict [])
             <> PDict ho)
    by (intros ho; discriminate).
  split.
  - apply (proj1 (options_must_be_dict Sample.json_loads Sample.answer
             Sample.datetime Sample.parse_date Sample.strftime
             "set description" Sample.null_options (PDict []) (PStr "A") []
             eq_refl eq_refl H)).
    + reflexivity.
    + simpl. auto.
  - apply (proj2 (options_must_be_dict Sample.json_loads Sample.answer
             Sample.datetime Sample.parse_date Sample.strftime
             "enroll" Sample.null_options (PDict []) (PStr "A") []
             eq_refl eq_refl H)).
    reflexivity.
Defined.

Lemma do_propagates_failures_witness :
  fst (do Sample.json_loads Sample.refusing Sample.parse_date Sample.strftime
          "delete" (Sample.on_token_A []) [])
  = Raise (CollaboratorError "token not found").
Proof.
  apply (proj2 (proj2 (do_propagates_failures Sample.json_loads
           Sample.refusing Sample.datetime Sample.parse_date Sample.strftime
           "delete" (Sample.on_token_A []) []))).
  reflexivity.
Defined.

Lemma set_validity_start_failure_witness :
  Sample.do "set validity"
    (Sample.on_token_A [("valid from", PStr "tomorrow");
                        ("valid till", PStr "2016-12-23")]) []
  = (Raise AttributeError,
     [ELog (LogActionForToken "set validity" (PStr "A"))]).
Proof.
  apply (proj1 (set_validity_start_failure Sample.json_loads Sample.answer
           Sample.datetime Sample.parse_date Sample.strftime
           "set validity"
           (Sample.on_token_A [("valid from", PStr "tomorrow");
                               ("valid till", PStr "2016-12-23")])
           (PDict []) (PStr "A")
           [("valid from", PStr "tomorrow"); ("valid till", PStr "2016-12-23")]
           [] eq_refl eq_refl eq_refl eq_refl eq_refl eq_refl)).
  reflexivity.
Defined.

Lemma set_validity_end_failure_witness :
  Sample.do "set validity"
    (Sample.on_token_A [("valid from", PStr "+1d");
                        ("valid till", PStr "someday")]) []
  = (Raise AttributeError,
     [ELog (LogActionForToken "set validity" (PStr "A"));
      ECall (set_validity_period_start (PStr "A") PNone
               "2016-11-15T10:00+0000")]).
Proof.
  apply (set_validity_end_failure Sample.json_loads Sample.answer
           Sample.datetime Sample.parse_date Sample.strftime
           "set validity"
           (Sample.on_token_A [("valid from", PStr "+1d");
                               ("valid till", PStr "someday")])
           (PDict []) (PStr "A")
           [("valid from", PStr "+1d"); ("valid till", PStr "someday")]
           [] eq_refl eq_refl eq_refl eq_refl eq_refl
           "2016-11-15T10:00+0000" PNone AttributeError);
    reflexivity.
Defined.

Lemma resolve_serial_body_shape_witness :
  resolve_serial [("serial", PStr "A")] (PList []) [] = Ret (PStr "A")
  /\
  resolve_serial [] (PList []) [("serial", PStr "C")] = Raise AttributeError.
Proof.
  split.
  - apply (proj1 (resolve_serial_body_shape
                    [("serial", PStr "A")] [] (PList []))).
    reflexivity.
  - apply (proj1 (proj2 (resolve_serial_body_shape
                           [] [("serial", PStr "C")] (PList [])))).
    + reflexivity.
    + intros (cd & dd & E & _). discriminate E.
Defined.

Lemma resolve_serial_is_a_candidate_witness :
  let all_data := [] in
  let content := PDict [("detail", PDict [("serial", PStr "B")])] in
  let audit := [("serial", PStr "C")] in
  let req := dict_get all_data "serial" PNone in
  let aud := dict_get audit "serial" PNone in
  (PStr "B" = req /\ truthy req = true)
  \/
  (exists cd dd,
     content = PDict cd /\ dict_get cd "detail" (PDict []) = PDict dd /\
     truthy req = false /\
     let det := dict_get dd "serial" PNone in
     (PStr "B" = det /\ truthy det = true) \/
     (PStr "B" = aud /\ truthy det = false)).
Proof.
  exact (resolve_serial_is_a_candidate
           [] [("serial", PStr "C")]
           (PDict [("detail", PDict [("serial", PStr "B")])]) (PStr "B")
           eq_refl).
Defined.

Lemma do_requires_object_body_witness :
  Sample.do "enroll" (Sample.list_response [("tokentype", PStr "hotp")]) []
  = (Raise AttributeError, []).
Proof.
  apply (do_requires_object_body Sample.json_loads Sample.answer
           Sample.datetime Sample.parse_date Sample.strftime
           "enroll" (Sample.list_response [("tokentype", PStr "hotp")])
           (PList []) []).
  - reflexivity.
  - reflexivity.
  - intros (cd & dd & E & _). discriminate E.
Defined.

Lemma enroll_ignores_body_and_audit_witness :
  Sample.do "enroll" (Sample.serial_in_body [("tokentype", PStr "hotp")]) []
  = Sample.do "enroll" (Sample.without_serial [("tokentype", PStr "hotp")]) []
  /\
  Sample.do "enroll" (Sample.on_token_A [("tokentype", PStr "hotp")]) []
  = Sample.do "enroll" (Sample.without_serial [("tokentype", PStr "hotp")]) [].
Proof.
  split.
  - apply (proj1 (enroll_ignores_body_and_audit Sample.json_loads
             Sample.answer Sample.datetime Sample.parse_date Sample.strftime
             "enroll"
             (Sample.without_serial [("tokentype", PStr "hotp")])
             (Sample.serial_in_body [("tokentype", PStr "hotp")])
             (PDict []) (PDict [("detail", PDict [("serial", PStr "B")])])
             PNone (PStr "B") []
             eq_refl eq_refl eq_refl eq_refl eq_refl eq_refl)).
    reflexivity.
  - apply (proj2 (enroll_ignores_body_and_audit Sample.json_loads
             Sample.answer Sample.datetime Sample.parse_date Sample.strftime
             "enroll"
             (Sample.without_serial [("tokentype", PStr "hotp")])
             (Sample.on_token_A [("tokentype", PStr "hotp")])
             (PDict []) (PDict []) PNone (PStr "A") []
             eq_refl eq_refl eq_refl eq_refl eq_refl eq_refl)
             [("tokentype", PStr "hotp")]);
      reflexivity.
Defined.

Lemma enroll_outcome_witness :
  do Sample.json_loads Sample.refusing Sample.parse_date Sample.strftime
     "enroll"
     (Sample.without_serial [("tokentype", PStr "hotp"); ("user", PBool true)])
     []
  = (Raise (CollaboratorError "no user in request"),
     [ELog LogInitializing; ECall (get_tokenowner [])])
  /\
  Sample.do "enroll" (Sample.without_serial [("tokentype", PStr "hotp")]) []
  = (Ret (PBool true),
     [ELog LogInitializing;
      ECall (init_token [("type", PStr "hotp"); ("genkey", PInt 1);
                         ("realm", PStr "")] PNone);
      ELog (LogEnrolled (PStr "OATH0001"))]).
Proof.
  split.
  - apply (proj1 (enroll_outcome Sample.json_loads Sample.refusing
             Sample.datetime Sample.parse_date Sample.strftime
             "enroll"
             (Sample.without_serial
                [("tokentype", PStr "hotp"); ("user", PBool true)])
             (PDict []) PNone
             [("tokentype", PStr "hotp"); ("user", PBool true)] []
             eq_refl eq_refl eq_refl eq_refl));
      reflexivity.
  - apply (proj2 (proj2 (enroll_outcome Sample.json_loads Sample.answer
             Sample.datetime Sample.parse_date Sample.strftime
             "enroll"
             (Sample.without_serial [("tokentype", PStr "hotp")])
             (PDict []) PNone [("tokentype", PStr "hotp")] []
             eq_refl eq_refl eq_refl eq_refl))).
    reflexivity.
Defined.

Lemma token_actions_target_the_serial_witness :
  serial_of_call (set_validity_period_end (PStr "B") PNone
                    "2016-12-23T00:00+0000")
  = Some (PStr "B").
Proof.
  apply (token_actions_target_the_serial Sample.json_loads Sample.answer
           Sample.datetime Sample.parse_date Sample.strftime
           "set validity"
           (Sample.serial_in_body [("valid from", PStr "+1d");
                                   ("valid till", PStr "2016-12-23")])
           (PDict [("detail", PDict [("serial", PStr "B")])]) (PStr "B") []
           eq_refl eq_refl eq_refl).
  simpl. auto.
Defined.

Lemma do_reads_declared_options_witness :
  Sample.do "Set Description"
    (Sample.on_token_A [("description", PStr "spare"); ("realm", PStr "r")]) []
  = Sample.do "Set Description"
      (Sample.on_token_A [("description", PStr "spare")]) [].
Proof.
  apply (do_reads_declared_options Sample.json_loads Sample.answer
           Sample.datetime Sample.parse_date Sample.strftime Sample.gettext
           "Set Description"
           (Sample.on_token_A [("description", PStr "spare")])
           (Sample.on_token_A [("description", PStr "spare");
                               ("realm", PStr "r")])
           [("description", PStr "spare")]
           [("description", PStr "spare"); ("realm", PStr "r")]
           Sample.schema [] []
           eq_refl eq_refl eq_refl eq_refl eq_refl eq_refl eq_refl).
  simpl. intros k [<- | []]. reflexivity.
Defined.

Lemma actions_failure_witness :
  actions (fun _ _ => Raise (CollaboratorError "database is down"))
          Sample.gettext []
  = (Raise (CollaboratorError "database is down"), [ECall get_realms])
  /\
  actions (fun _ _ => Ret PNone) Sample.gettext []
  = (Raise AttributeError, [ECall get_realms]).
Proof.
  split.
  - apply (proj1 (actions_failure
                    (fun _ _ => Raise (CollaboratorError "database is down"))
                    Sample.gettext [])).
    reflexivity.
  - apply (proj1 (proj2 (actions_failure (fun _ _ => Ret PNone)
                           Sample.gettext [])) PNone).
    + reflexivity.
    + intros d. discriminate.
Defined.

Lemma actions_enumerated_options_witness :
  exists realms tokentypes,
    Sample.answer [] get_realms = Ret (PDict realms) /\
    Sample.answer [get_realms] get_token_types = Ret tokentypes /\
    (("enroll" = ACTION_TYPE.SET_TOKENREALM /\ "tokentype" = "realm"
      /\ PList [PStr "hotp"; PStr "totp"] = PList (keys realms)) \/
     ("enroll" = ACTION_TYPE.INIT /\ "tokentype" = "realm"
      /\ PList [PStr "hotp"; PStr "totp"] = PList (keys realms)) \/
     ("enroll" = ACTION_TYPE.INIT /\ "tokentype" = "tokentype"
      /\ PList [PStr "hotp"; PStr "totp"] = tokentypes)).
Proof.
  exact (actions_enumerated_options Sample.answer Sample.gettext []
           Sample.schema "enroll" "tokentype"
           (PList [PStr "hotp"; PStr "totp"]) eq_refl eq_refl).
Defined.

Lemma registry_matches_dispatch_witness :
  lower "set validity" = "set validity"
  /\
  In "enroll" (map fst Sample.schema).
Proof.
  destruct (registry_matches_dispatch Sample.answer Sample.gettext []
              Sample.schema eq_refl) as [Hlow Hiff].
  split.
  - apply Hlow. simpl. auto 10.
  - apply Hiff. right. reflexivity.
Defined.

Lemma set_validity_without_bounds_witness :
  Sample.do "set validity" (Sample.on_token_A [("valid from", PStr "")]) []
  = (Ret (PBool true), [ELog (LogActionForToken "set validity" (PStr "A"))]).
Proof.
  apply (set_validity_without_bounds Sample.json_loads Sample.answer
           Sample.datetime Sample.parse_date Sample.strftime
           "set validity" (Sample.on_token_A [("valid from", PStr "")])
           (PDict []) (PStr "A") [("valid from", PStr "")] []);
    reflexivity.
Defined.
